(** * atomicui: the [init] command (src/commands/init.ts)

    A shallow embedding of the [init] action, [promptForProjectDetails]
    and [runInit].  The command is a sequence of effects on the file
    system, the terminal, the remote service and one subprocess; the
    embedding threads a [World] (the disk and the trace of effects
    performed so far) through a small monad with two kinds of abrupt
    completion: a thrown JavaScript error, which [try]/[catch]
    intercepts, and [process.exit], which nothing intercepts. *)

From Stdlib Require Import ZArith List String Ascii Bool Lia.
From stdpp Require Import base option gmap strings.

Local Open Scope string_scope.
Local Open Scope Z_scope.

(** ** Data model *)

(** [{ id, name }] as returned by [getThemes]. *)
Record Theme := mkTheme { theme_id : string; theme_name : string }.

(** [{ css, dependencies }] as returned by [getInitData]. *)
Record InitPayload := mkInitPayload {
  init_css : string;
  init_dependencies : list string
}.

(** [atomicComponentsConfig]:
    [{ theme: { name, css }, alias: { components } }]. *)
Record ProjectConfig := mkProjectConfig {
  cfg_theme_name : string;
  cfg_theme_css : string;
  cfg_alias_components : string
}.

(** [resolvedPaths: { components, css }]. *)
Record ResolvedPaths := mkResolvedPaths {
  resolved_components : string;
  resolved_css : string
}.

(** [Config]: the raw configuration together with its resolved paths. *)
Record Config := mkConfig {
  raw : ProjectConfig;
  resolvedPaths : ResolvedPaths
}.

(** A JavaScript [Error], identified by its message. *)
Record Error := MkError { message : string }.

(** ** The disk *)

Inductive node :=
| File (content : string)
| Dir.

Abbreviation FS := (gmap string node).

(** [path.dirname] on POSIX paths: trailing separators are dropped, then
    the last segment and the separators before it. *)
Fixpoint strip_separators (s : string) : string :=
  match s with
  | EmptyString => EmptyString
  | String c s' =>
      match strip_separators s' with
      | EmptyString =>
          if Ascii.eqb c "/" then EmptyString else String c EmptyString
      | String c' t => String c (String c' t)
      end
  end.

(** The part of [s] before its last separator, if it has one. *)
Fixpoint dirname_go (s : string) : option string :=
  match s with
  | EmptyString => None
  | String c s' =>
      match dirname_go s' with
      | Some d => Some (String c d)
      | None => if Ascii.eqb c "/" then Some EmptyString else None
      end
  end.

Definition dirname (p : string) : string :=
  match dirname_go (strip_separators p) with
  | Some d =>
      match strip_separators d with
      | EmptyString => "/"
      | String c t => String c t
      end
  | None =>
      match p, strip_separators p with
      | String _ _, EmptyString => "/"
      | _, _ => "."
      end
  end.

(** The character U+0022, as a string. *)
Definition quote_mark : string := String "034" EmptyString.

(** [path.resolve(base, name)] for an absolute, normalised [base] and a
    plain file name. *)
Definition path_resolve (base name : string) : string :=
  if String.eqb base "/" then "/" +:+ name else base +:+ "/" +:+ name.

(** [p], its parent, its grandparent, ... up to the root. *)
Fixpoint ancestors (fuel : nat) (p : string) : list string :=
  match fuel with
  | O => []
  | S n =>
      let d := dirname p in
      p :: (if String.eqb d p then [] else ancestors n d)
  end.

Definition is_file (fs : FS) (p : string) : bool :=
  match fs !! p with Some (File _) => true | _ => false end.

Definition fs_exists (fs : FS) (p : string) : bool :=
  match fs !! p with Some _ => true | None => false end.

Definition ensure_dir (p : string) (fs : FS) : FS :=
  match fs !! p with
  | None => <[p := Dir]> fs
  | Some _ => fs
  end.

(** [fs.mkdir(p, { recursive: true })]: creates [p] and every missing
    ancestor; rejects for the empty path and when a regular file is in the
    way, at [p] itself or above it. *)
Definition mkdir_p (p : string) (fs : FS) : Error + FS :=
  let chain := ancestors (S (String.length p)) p in
  if String.eqb p EmptyString
  then inl (MkError "ENOENT: no such file or directory, mkdir")
  else if is_file fs p
  then inl (MkError "EEXIST: file already exists, mkdir")
  else if existsb (is_file fs) chain
  then inl (MkError "ENOTDIR: not a directory, mkdir")
  else inr (foldr ensure_dir fs chain).

(** [fs.writeFile(p, content, "utf8")]: creates or replaces the regular
    file [p]; rejects when [p] is a directory or its parent is not one. *)
Definition write_file (p content : string) (fs : FS) : Error + FS :=
  match fs !! p with
  | Some Dir => inl (MkError "EISDIR: illegal operation on a directory, open")
  | _ =>
      match fs !! dirname p with
      | Some Dir => inr (<[p := File content]> fs)
      | _ => inl (MkError "ENOENT: no such file or directory, open")
      end
  end.

(** [fs.unlink(p)]: removes the regular file [p]. *)
Definition unlink_file (p : string) (fs : FS) : Error + FS :=
  match fs !! p with
  | Some (File _) => inr (delete p fs)
  | Some Dir =>
      inl (MkError "EISDIR: illegal operation on a directory, unlink")
  | None => inl (MkError "ENOENT: no such file or directory, unlink")
  end.

(** ** JSON: [JSON.stringify(value, null, 2)] and [JSON.parse]

    Restricted to the values the command serialises: strings and objects. *)

#[local] Unset Elimination Schemes.
Inductive json :=
| JString (s : string)
| JObject (members : list (string * json)).
#[local] Set Elimination Schemes.

Definition hex_digit (n : nat) : ascii :=
  nth n (list_ascii_of_string "0123456789abcdef") "0"%char.

(** Code units below U+0020: the three high bits are clear. *)
Definition is_control (c : ascii) : bool :=
  match c with
  | Ascii _ _ _ _ _ b5 b6 b7 => negb (b5 || b6 || b7)
  end.

(** The [QuoteJSONString] escape of one code unit. *)
Definition escape_char (c : ascii) : string :=
  if Ascii.eqb c "034" then String "\" (String "034" EmptyString)
  else if Ascii.eqb c "\" then "\\"
  else if Ascii.eqb c "008" then "\b"
  else if Ascii.eqb c "009" then "\t"
  else if Ascii.eqb c "010" then "\n"
  else if Ascii.eqb c "012" then "\f"
  else if Ascii.eqb c "013" then "\r"
  else if is_control c then
    String "\" (String "u" (String "0" (String "0"
      (String (hex_digit (Nat.div (nat_of_ascii c) 16))
      (String (hex_digit (Nat.modulo (nat_of_ascii c) 16)) EmptyString)))))
  else String c EmptyString.

Fixpoint escape (s : string) : string :=
  match s with
  | EmptyString => EmptyString
  | String c s' => escape_char c +:+ escape s'
  end.

Definition quote (s : string) : string :=
  String "034" (escape s +:+ String "034" EmptyString).

Definition newline : string := String "010" EmptyString.

Fixpoint spaces (n : nat) : string :=
  match n with
  | O => EmptyString
  | S k => String " " (spaces k)
  end.

(** Pretty printer with a two-space gap, at nesting depth [depth]. *)
Fixpoint stringify_at (depth : nat) (v : json) : string :=
  match v with
  | JString s => quote s
  | JObject members =>
      let member kv :=
        spaces (2 * S depth) +:+ quote (fst kv) +:+ ": "
          +:+ stringify_at (S depth) (snd kv) in
      let fix go (ms : list (string * json)) : string :=
        match ms with
        | [] => EmptyString
        | [kv] => member kv
        | kv :: rest => member kv +:+ "," +:+ newline +:+ go rest
        end in
      match members with
      | [] => "{}"
      | _ => "{" +:+ newline +:+ go members +:+ newline
               +:+ spaces (2 * depth) +:+ "}"
      end
  end.

Definition JSON_stringify (v : json) : string := stringify_at 0 v.

Definition is_ws (c : ascii) : bool :=
  Ascii.eqb c " " || Ascii.eqb c "010" || Ascii.eqb c "013" || Ascii.eqb c "009".

Fixpoint skip_ws (s : string) : string :=
  match s with
  | String c s' => if is_ws c then skip_ws s' else s
  | EmptyString => EmptyString
  end.

Definition hex_value (c : ascii) : option nat :=
  let n := nat_of_ascii c in
  if Nat.leb 48 n && Nat.leb n 57 then Some (n - 48)%nat
  else if Nat.leb 97 n && Nat.leb n 102 then Some (n - 87)%nat
  else if Nat.leb 65 n && Nat.leb n 70 then Some (n - 55)%nat
  else None.

(** A [\uXXXX] escape, for code units that fit the byte strings used here. *)
Definition unicode_escape (a b c d : ascii) : option ascii :=
  match hex_value a, hex_value b, hex_value c, hex_value d with
  | Some 0%nat, Some 0%nat, Some h, Some l => Some (ascii_of_nat (16 * h + l))
  | _, _, _, _ => None
  end.

(** The characters of a string literal after its opening quote, up to and
    including the closing quote; returns the decoded string and the rest. *)
Fixpoint parse_string_body (s : string) : option (string * string) :=
  match s with
  | EmptyString => None
  | String c rest =>
      if Ascii.eqb c "034" then Some (EmptyString, rest)
      else if Ascii.eqb c "\" then
        match rest with
        | String e rest' =>
            let continue (d : ascii) (tail : string) :=
              match parse_string_body tail with
              | Some (str, r) => Some (String d str, r)
              | None => None
              end in
            if Ascii.eqb e "034" then continue "034"%char rest'
            else if Ascii.eqb e "\" then continue "\"%char rest'
            else if Ascii.eqb e "/" then continue "/"%char rest'
            else if Ascii.eqb e "b" then continue "008"%char rest'
            else if Ascii.eqb e "t" then continue "009"%char rest'
            else if Ascii.eqb e "n" then continue "010"%char rest'
            else if Ascii.eqb e "f" then continue "012"%char rest'
            else if Ascii.eqb e "r" then continue "013"%char rest'
            else if Ascii.eqb e "u" then
              match rest' with
              | String h1 (String h2 (String h3 (String h4 tail))) =>
                  match unicode_escape h1 h2 h3 h4 with
                  | Some d => continue d tail
                  | None => None
                  end
              | _ => None
              end
            else None
        | EmptyString => None
        end
      else if is_control c then None
      else
        match parse_string_body rest with
        | Some (str, r) => Some (String c str, r)
        | None => None
        end
  end.

Fixpoint parse_value (fuel : nat) (s : string) : option (json * string) :=
  match fuel with
  | O => None
  | S n =>
      match skip_ws s with
      | String c rest =>
          if Ascii.eqb c "034" then
            match parse_string_body rest with
            | Some (str, r) => Some (JString str, r)
            | None => None
            end
          else if Ascii.eqb c "{" then
            match skip_ws rest with
            | String c' rest' =>
                if Ascii.eqb c' "}" then Some (JObject [], rest')
                else
                  match parse_members n rest with
                  | Some (ms, r) => Some (JObject ms, r)
                  | None => None
                  end
            | EmptyString => None
            end
          else None
      | EmptyString => None
      end
  end
with parse_members (fuel : nat) (s : string)
  : option (list (string * json) * string) :=
  match fuel with
  | O => None
  | S n =>
      match skip_ws s with
      | String c rest =>
          if Ascii.eqb c "034" then
            match parse_string_body rest with
            | Some (k, r1) =>
                match skip_ws r1 with
                | String c1 r2 =>
                    if Ascii.eqb c1 ":" then
                      match parse_value n r2 with
                      | Some (v, r3) =>
                          match skip_ws r3 with
                          | String c3 r4 =>
                              if Ascii.eqb c3 "," then
                                match parse_members n r4 with
                                | Some (ms, r5) => Some ((k, v) :: ms, r5)
                                | None => None
                                end
                              else if Ascii.eqb c3 "}" then Some ([(k, v)], r4)
                              else None
                          | EmptyString => None
                          end
                      | None => None
                      end
                    else None
                | EmptyString => None
                end
            | None => None
            end
          else None
      | EmptyString => None
      end
  end.

Definition JSON_parse (s : string) : option json :=
  match parse_value (S (String.length s)) s with
  | Some (v, rest) =>
      match skip_ws rest with
      | EmptyString => Some v
      | String _ _ => None
      end
  | None => None
  end.

(** Property access [obj[key]] on a parsed object (a repeated key keeps
    its last value). *)
Fixpoint member (key : string) (ms : list (string * json)) : option json :=
  match ms with
  | [] => None
  | (k, v) :: rest =>
      match member key rest with
      | Some v' => Some v'
      | None => if String.eqb k key then Some v else None
      end
  end.

Definition config_to_json (c : ProjectConfig) : json :=
  JObject
    [ ("theme", JObject [ ("name", JString (cfg_theme_name c));
                          ("css", JString (cfg_theme_css c)) ]);
      ("alias", JObject [ ("components", JString (cfg_alias_components c)) ]) ].

(** Reading [theme.name], [theme.css] and [alias.components] back. *)
Definition config_of_json (v : json) : option ProjectConfig :=
  match v with
  | JObject top =>
      match member "theme" top, member "alias" top with
      | Some (JObject th), Some (JObject al) =>
          match member "name" th, member "css" th, member "components" al with
          | Some (JString n), Some (JString c), Some (JString a) =>
              Some (mkProjectConfig n c a)
          | _, _, _ => None
          end
      | _, _ => None
      end
  | JString _ => None
  end.

Definition read_config (text : string) : option ProjectConfig :=
  match JSON_parse text with
  | Some v => config_of_json v
  | None => None
  end.

(** ** Effects *)

(** What a file-system call is made for. *)
Inductive Probe :=
| TargetDir | Manifest | ConfigFile | ComponentsDir | Stylesheet | StylesheetDir.

(** The four questions put to the operator. *)
Inductive PromptId := PTheme | PGlobalCSS | PComponents | PProceed.

(** The spinners created with [ora(text)], by the text they show. *)
Inductive Spinner := Validating | WritingConfig | Initializing | Installing.

Definition spinner_text (s : Spinner) : string :=
  match s with
  | Validating => "Validating project..."
  | WritingConfig => "Writing getatomic.components.json..."
  | Initializing => "Initializing project..."
  | Installing => EmptyString
  end.

Inductive SpinnerAction := SpinStart | SpinSucceed | SpinFail.

Inductive Stdio := StdioInherit | StdioPipe.

(** One entry of the trace: an effect the command performed, with the
    answer it got where there is one ([None]: the call rejected). *)
Inductive Event :=
| EvLogInfo (msg : string)
| EvLogError (msg : string)
| EvSpinner (action : SpinnerAction) (s : Spinner)
| EvExists (what : Probe) (path : string) (found : bool)
| EvCheckPackage (pkg : string) (found : bool)
| EvGetThemes (result : option (list Theme))
| EvGetInitData (theme : string) (result : option InitPayload)
| EvPrompt (q : PromptId) (cancelled : bool)
| EvResolveConfigPaths (c : ProjectConfig) (result : option ResolvedPaths)
| EvWriteFile (what : Probe) (path content : string)
| EvMkdir (what : Probe) (path : string)
| EvUnlink (path : string)
| EvGetPackageManager (result : string)
| EvSpawn (cmd : string) (args : list string) (cwd : string) (stdio : Stdio)
| EvHandleError (e : Error).

Record World := mkWorld { disk : FS; trace : list Event }.

Definition record (ev : Event) (w : World) : World :=
  mkWorld (disk w) (trace w ++ [ev]).

(** How a computation ends: a value, a thrown error, or [process.exit]. *)
Inductive Res (A : Type) :=
| Ok (a : A)
| Throw (e : Error)
| Exit (code : Z).
Arguments Ok {A} a.
Arguments Throw {A} e.
Arguments Exit {A} code.

Definition M (A : Type) : Type := World -> Res A * World.

Definition ret {A} (a : A) : M A := fun w => (Ok a, w).

Definition bind {A B} (m : M A) (k : A -> M B) : M B := fun w =>
  match m w with
  | (Ok a, w') => k a w'
  | (Throw e, w') => (Throw e, w')
  | (Exit c, w') => (Exit c, w')
  end.

Notation "x <- m ;; k" := (bind m (fun x => k))
  (at level 100, m at next level, right associativity).
Notation "m ;; k" := (bind m (fun _ => k))
  (at level 100, right associativity).

Definition throw {A} (e : Error) : M A := fun w => (Throw e, w).

(** [process.exit(code)]. *)
Definition process_exit {A} (code : Z) : M A := fun w => (Exit code, w).

Definition emit (ev : Event) : M unit := fun w => (Ok tt, record ev w).

(** [try { body } catch (error) { handler(error) }]: only a thrown error
    reaches the handler; [process.exit] ends the run where it is called. *)
Definition try_catch {A} (body : M A) (handler : Error -> M A) : M A := fun w =>
  match body w with
  | (Throw e, w') => handler e w'
  | r => r
  end.

(** Lifting a disk operation that may reject. *)
Definition on_disk (op : FS -> Error + FS) (ev : Event) : M unit := fun w =>
  match op (disk w) with
  | inl e => (Throw e, w)
  | inr fs' => (Ok tt, record ev (mkWorld fs' (trace w)))
  end.

Definition existsSync (what : Probe) (p : string) : M bool := fun w =>
  let found := fs_exists (disk w) p in
  (Ok found, record (EvExists what p found) w).

Definition fs_writeFile (what : Probe) (p content : string) : M unit :=
  on_disk (write_file p content) (EvWriteFile what p content).

Definition fs_mkdir_recursive (what : Probe) (p : string) : M unit :=
  on_disk (mkdir_p p) (EvMkdir what p).

Definition fs_unlink (p : string) : M unit :=
  on_disk (unlink_file p) (EvUnlink p).

Definition logger_info (msg : string) : M unit := emit (EvLogInfo msg).
Definition logger_error (msg : string) : M unit := emit (EvLogError msg).
Definition ora_start (s : Spinner) : M unit := emit (EvSpinner SpinStart s).
Definition spinner_succeed (s : Spinner) : M unit :=
  emit (EvSpinner SpinSucceed s).
Definition spinner_fail (s : Spinner) : M unit := emit (EvSpinner SpinFail s).

(** ** The collaborators

    The helpers under [@/utils] (package inspection, alias resolution, the
    remote client, the error reporter) are not part of the sources at hand,
    and neither are the operator, the network and the package manager; the
    command is embedded over an arbitrary behaviour of each. *)

(** What the operator does at a prompt. *)
Inductive Answer (A : Type) :=
| Answered (a : A)
| Cancelled.
Arguments Answered {A} a.
Arguments Cancelled {A}.

Record Env := mkEnv {
  (** [checkPackageExists(name, cwd)]: is the package declared for the
      project at [cwd]. *)
  checkPackageExists : string -> string -> FS -> bool;
  (** [getThemes()] *)
  getThemes_result : Error + list Theme;
  (** [getInitData({ theme })] *)
  getInitData_result : string -> Error + InitPayload;
  (** [resolveConfigPaths(cwd, config)], reduced to the resolved paths it
      adds to the configuration. *)
  resolveConfigPaths_result :
    string -> ProjectConfig -> FS -> Error + ResolvedPaths;
  (** [getPackageManager(cwd)] *)
  getPackageManager_result : string -> FS -> string;
  (** The subprocess started by [execa(cmd, args, { cwd })]: what it leaves
      on disk, and the error [execa] rejects with when it fails. *)
  subprocess : string -> list string -> string -> FS -> FS * option Error;
  (** [handleError(error)] reports the error; [Some code] when it ends the
      process itself with that code, [None] when it returns. *)
  handleError_exit : Error -> option Z;
  (** The operator's answers: the position chosen in the theme list, the
      text typed for the stylesheet and for the alias (empty: keep the
      suggestion), and the answer to the confirmation. *)
  op_theme : Answer nat;
  op_globalCSS : Answer string;
  op_components : Answer string;
  op_proceed : Answer bool
}.

(** One choice of a select prompt: [{ title, value }]. *)
Record Choice := mkChoice { title : string; value : string }.

Section Init.

Context (env : Env).

(** A call that settles with a value or rejects with an error. *)
Definition lift_result {A} (ev : option A -> Event) (r : Error + A) : M A :=
  fun w =>
    match r with
    | inl e => (Throw e, record (ev None) w)
    | inr a => (Ok a, record (ev (Some a)) w)
    end.

Definition getThemes : M (list Theme) :=
  lift_result EvGetThemes (getThemes_result env).

Definition getInitData (theme : string) : M InitPayload :=
  lift_result (EvGetInitData theme) (getInitData_result env theme).

(** Modelled from the spec: [resolveConfigPaths] (utils/get-config) is not
    among the sources. Its result is the configuration it was given plus
    [resolvedPaths] (section 3: "ProjectConfig plus resolvedPaths"); it
    reads the project's alias declarations and has no other effect
    (section 4.2). The paths themselves are a parameter. *)
Definition resolveConfigPaths (cwd : string) (c : ProjectConfig) : M Config :=
  fun w =>
    match resolveConfigPaths_result env cwd c (disk w) with
    | inl e => (Throw e, record (EvResolveConfigPaths c None) w)
    | inr paths =>
        (Ok (mkConfig c paths), record (EvResolveConfigPaths c (Some paths)) w)
    end.

Definition getPackageManager (cwd : string) : M string := fun w =>
  let pm := getPackageManager_result env cwd (disk w) in
  (Ok pm, record (EvGetPackageManager pm) w).

Definition check_package (pkg cwd : string) : M bool := fun w =>
  let found := checkPackageExists env pkg cwd (disk w) in
  (Ok found, record (EvCheckPackage pkg found) w).

(** [await execa(cmd, args, { cwd, stdio })]: the subprocess runs to its
    end before the call settles; a failing subprocess rejects. *)
Definition execa (cmd : string) (args : list string) (cwd : string)
    (stdio : Stdio) : M unit := fun w =>
  let w1 := record (EvSpawn cmd args cwd stdio) w in
  match subprocess env cmd args cwd (disk w1) with
  | (fs', None) => (Ok tt, mkWorld fs' (trace w1))
  | (fs', Some e) => (Throw e, mkWorld fs' (trace w1))
  end.

(** [handleError(error)] *)
Definition handleError (e : Error) : M unit := fun w =>
  match handleError_exit env e with
  | Some code => (Exit code, record (EvHandleError e) w)
  | None => (Ok tt, record (EvHandleError e) w)
  end.

(** *** Prompts

    Each question yields [Some answer], or [None] when the operator
    cancels it. The cursor of a select prompt ranges over its choices, so
    a position outside them is not something the operator can submit: the
    only way out of such a prompt is to cancel it. A text prompt left
    empty submits its suggestion. *)

Definition ask_select (q : PromptId) (choices : list Choice)
    (a : Answer nat) : M (option string) := fun w =>
  match a with
  | Answered i =>
      match choices !! i with
      | Some c => (Ok (Some (value c)), record (EvPrompt q false) w)
      | None => (Ok None, record (EvPrompt q true) w)
      end
  | Cancelled => (Ok None, record (EvPrompt q true) w)
  end.

Definition ask_text (q : PromptId) (initial : string)
    (a : Answer string) : M (option string) := fun w =>
  match a with
  | Answered typed =>
      (Ok (Some (if String.eqb typed EmptyString then initial else typed)),
       record (EvPrompt q false) w)
  | Cancelled => (Ok None, record (EvPrompt q true) w)
  end.

Definition ask_confirm (q : PromptId) (a : Answer bool) : M (option bool) :=
  fun w =>
    match a with
    | Answered b => (Ok (Some b), record (EvPrompt q false) w)
    | Cancelled => (Ok None, record (EvPrompt q true) w)
    end.

(** A question of a [prompts] call that was given the [onCancel] option. *)
Definition or_cancel {A} (ask : M (option A)) (onCancel : M A) : M A :=
  r <- ask ;;
  match r with
  | Some a => ret a
  | None => onCancel
  end.

(** JavaScript's [!proceed]; a cancelled confirmation leaves [proceed]
    undefined. *)
Definition not_truthy (proceed : option bool) : bool :=
  match proceed with
  | Some true => false
  | _ => true
  end.

Definition config_file_name : string := "getatomic.components.json".

(** *** [promptForProjectDetails] *)
Definition promptForProjectDetails (cwd : string) : M Config :=
  themes <- getThemes ;;
  let onCancel {A} : M A := throw (MkError "Terminated Atomic UI setup.") in
  theme <- or_cancel
    (ask_select PTheme
       (map (fun t => mkChoice (theme_name t) (theme_id t)) themes)
       (op_theme env)) onCancel ;;
  globalCSS <- or_cancel
    (ask_text PGlobalCSS "app/globals.css" (op_globalCSS env)) onCancel ;;
  components <- or_cancel
    (ask_text PComponents "@/components/getatomic" (op_components env))
    onCancel ;;
  let atomicComponentsConfig := mkProjectConfig theme globalCSS components in
  resolvedConfig <- resolveConfigPaths cwd atomicComponentsConfig ;;
  (if String.eqb (resolved_components (resolvedPaths resolvedConfig))
        EmptyString
      || String.eqb (resolved_css (resolvedPaths resolvedConfig)) EmptyString
   then throw (MkError
     "Failed to resolve components alias, please enter a valid alias.")
   else ret tt) ;;
  proceed <- ask_confirm PProceed (op_proceed env) ;;
  (if not_truthy proceed then process_exit 0 else ret tt) ;;
  ora_start WritingConfig ;;
  let targetPath := path_resolve cwd config_file_name in
  fs_writeFile ConfigFile targetPath
    (JSON_stringify (config_to_json atomicComponentsConfig)) ;;
  spinner_succeed WritingConfig ;;
  ret resolvedConfig.

(** *** [runInit] *)
Definition runInit (cwd : string) (config : Config) : M unit :=
  ora_start Initializing ;;
  componentsExist <-
    existsSync ComponentsDir (resolved_components (resolvedPaths config)) ;;
  (if negb componentsExist
   then fs_mkdir_recursive ComponentsDir
          (resolved_components (resolvedPaths config))
   else ret tt) ;;
  initData <- getInitData (cfg_theme_name (raw config)) ;;
  cssExists <- existsSync Stylesheet (resolved_css (resolvedPaths config)) ;;
  (if negb cssExists
   then fs_mkdir_recursive StylesheetDir
          (dirname (resolved_css (resolvedPaths config)))
   else ret tt) ;;
  fs_writeFile Stylesheet (resolved_css (resolvedPaths config))
    (init_css initData) ;;
  spinner_succeed Initializing ;;
  match init_dependencies initData with
  | [] => logger_info "No dependencies to install."
  | _ :: _ =>
      ora_start Installing ;;
      logger_info "Installing dependencies..." ;;
      packageManager <- getPackageManager cwd ;;
      execa packageManager
        ((if String.eqb packageManager "npm" then "install" else "add")
           :: init_dependencies initData)
        cwd StdioInherit ;;
      spinner_succeed Installing
  end.

(** *** The [init] action

    [cwd] is [path.resolve(options.cwd)]; the action computes it once
    outside the [try] and once more inside, to the same value. *)
Definition init_try (cwd : string) : M unit :=
  logger_info "Initializing Atomic UI" ;;
  targetExists <- existsSync TargetDir cwd ;;
  (if negb targetExists
   then logger_error ("The path " +:+ cwd
                        +:+ " does not exist. Please try again.") ;;
        process_exit 1
   else ret tt) ;;
  ora_start Validating ;;
  manifestExists <- existsSync Manifest (path_resolve cwd "package.json") ;;
  (if negb manifestExists
   then spinner_fail Validating ;;
        logger_error ("No package.json found in " +:+ cwd
                        +:+ ". Please run " +:+ quote_mark +:+ "npm init"
                        +:+ quote_mark +:+ " first.") ;;
        process_exit 1
   else ret tt) ;;
  hasReact <- check_package "react" cwd ;;
  noFramework <-
    (if negb hasReact
     then hasNext <- check_package "next" cwd ;; ret (negb hasNext)
     else ret false) ;;
  (if (noFramework : bool)
   then spinner_fail Validating ;;
        logger_error
          "Missing required dependencies. Please install React or Next first." ;;
        process_exit 1
   else ret tt) ;;
  spinner_succeed Validating ;;
  projectConfig <- promptForProjectDetails cwd ;;
  logger_info "Project configuration saved to getatomic.components.json" ;;
  runInit cwd projectConfig.

Definition init_catch (cwd : string) (error : Error) : M unit :=
  handleError error ;;
  let configPath := path_resolve cwd config_file_name in
  configExists <- existsSync ConfigFile configPath ;;
  if (configExists : bool) then fs_unlink configPath else ret tt.

Definition init (cwd : string) : M unit :=
  try_catch (init_try cwd) (init_catch cwd).

(** A run of the command against the disk [fs]. *)
Definition run (cwd : string) (fs : FS) : Res unit * World :=
  init cwd (mkWorld fs []).

End Init.

(** The exit status the shell sees: 0 when the action returns, the code
    given to [process.exit], 1 for a rejection nothing handled. *)
Definition exit_status (r : Res unit) : Z :=
  match r with
  | Ok _ => 0
  | Exit c => c
  | Throw _ => 1
  end.

Definition outcome (env : Env) (cwd : string) (fs : FS) : Res unit :=
  fst (run env cwd fs).

Definition final (env : Env) (cwd : string) (fs : FS) : World :=
  snd (run env cwd fs).

(** ** Observations on a trace *)

Definition is_prompt (ev : Event) : bool :=
  match ev with EvPrompt _ _ => true | _ => false end.

Definition is_fetch (ev : Event) : bool :=
  match ev with EvGetThemes _ | EvGetInitData _ _ => true | _ => false end.

Definition is_write (ev : Event) : bool :=
  match ev with EvWriteFile _ _ _ => true | _ => false end.

Definition is_mkdir (ev : Event) : bool :=
  match ev with EvMkdir _ _ => true | _ => false end.

Definition is_unlink (ev : Event) : bool :=
  match ev with EvUnlink _ => true | _ => false end.

Definition is_spawn (ev : Event) : bool :=
  match ev with EvSpawn _ _ _ _ => true | _ => false end.

(** Neither a question, a request, a change of the disk nor a subprocess. *)
Definition is_passive (ev : Event) : bool :=
  negb (is_prompt ev || is_fetch ev || is_write ev || is_mkdir ev
        || is_unlink ev || is_spawn ev).

Definition PromptId_eqb (a b : PromptId) : bool :=
  match a, b with
  | PTheme, PTheme | PGlobalCSS, PGlobalCSS
  | PComponents, PComponents | PProceed, PProceed => true
  | _, _ => false
  end.

(** The question [q] was put and the operator cancelled it. *)
Definition cancelled_at (q : PromptId) (tr : list Event) : bool :=
  existsb (fun ev => match ev with
                     | EvPrompt q' true => PromptId_eqb q q'
                     | _ => false
                     end) tr.

(** The question [q] was put and the operator answered it. *)
Definition answered_at (q : PromptId) (tr : list Event) : bool :=
  existsb (fun ev => match ev with
                     | EvPrompt q' false => PromptId_eqb q q'
                     | _ => false
                     end) tr.

(** [spinner.succeed()] of the validation spinner (line 60). *)
Definition validated (tr : list Event) : bool :=
  existsb (fun ev => match ev with
                     | EvSpinner SpinSucceed Validating => true
                     | _ => false
                     end) tr.

(** The error given to [handleError], if the [catch] block ran. *)
Definition handled_error (tr : list Event) : option Error :=
  head (omap (fun ev => match ev with
                        | EvHandleError e => Some e
                        | _ => None
                        end) tr).

(** The themes [getThemes] returned. *)
Definition themes_in (tr : list Event) : option (list Theme) :=
  head (omap (fun ev => match ev with
                        | EvGetThemes (Some ts) => Some ts
                        | _ => None
                        end) tr).

(** The configuration given to [resolveConfigPaths] and the paths it
    returned. *)
Definition resolved_in (tr : list Event) : option (ProjectConfig * ResolvedPaths) :=
  head (omap (fun ev => match ev with
                        | EvResolveConfigPaths c (Some paths) => Some (c, paths)
                        | _ => None
                        end) tr).

(** The payload [getInitData] returned. *)
Definition fetched_in (tr : list Event) : option InitPayload :=
  head (omap (fun ev => match ev with
                        | EvGetInitData _ (Some payload) => Some payload
                        | _ => None
                        end) tr).

(** The package manager [getPackageManager] detected. *)
Definition detected_in (tr : list Event) : option string :=
  head (omap (fun ev => match ev with
                        | EvGetPackageManager pm => Some pm
                        | _ => None
                        end) tr).

(** Where the configuration was written, and the text written there. *)
Definition config_written (tr : list Event) : option (string * string) :=
  head (omap (fun ev => match ev with
                        | EvWriteFile ConfigFile path text => Some (path, text)
                        | _ => None
                        end) tr).

(** What the [catch] block may do after reporting the error: look for the
    configuration file and remove it. *)
Definition is_cleanup (cwd : string) (ev : Event) : bool :=
  match ev with
  | EvExists ConfigFile p _ => String.eqb p (path_resolve cwd config_file_name)
  | EvUnlink p => String.eqb p (path_resolve cwd config_file_name)
  | _ => false
  end.

(** The events after the error reached [handleError]. *)
Fixpoint after_handler (tr : list Event) : list Event :=
  match tr with
  | [] => []
  | EvHandleError _ :: rest => rest
  | _ :: rest => after_handler rest
  end.

(** The last two effects are the subprocess and, after it, the success of
    the installation spinner. *)
Definition ends_with_install (tr : list Event) : bool :=
  match rev tr with
  | EvSpinner SpinSucceed Installing :: EvSpawn _ _ _ _ :: _ => true
  | _ => false
  end.

(** A run that went through the [try] block to its end. *)
Definition succeeded (env : Env) (cwd : string) (fs : FS) : Prop :=
  outcome env cwd fs = Ok tt /\ handled_error (trace (final env cwd fs)) = None.

(** The frameworks the validation accepts (lines 49 to 52). *)
Definition supported_frameworks : list string := ["react"; "next"].

(** ** The pipeline of the orchestrator *)

Inductive Step :=
| ValidateTarget | ValidatePackageJSON | ValidateFramework | PromptAndResolve
| PersistConfig | EnsureComponentsDir | FetchInitPayload | WriteStylesheet
| InstallDependencies.

Definition pipeline : list Step :=
  [ValidateTarget; ValidatePackageJSON; ValidateFramework; PromptAndResolve;
   PersistConfig; EnsureComponentsDir; FetchInitPayload; WriteStylesheet;
   InstallDependencies].

Definition Step_index (s : Step) : nat :=
  match s with
  | ValidateTarget => 0 | ValidatePackageJSON => 1 | ValidateFramework => 2
  | PromptAndResolve => 3 | PersistConfig => 4 | EnsureComponentsDir => 5
  | FetchInitPayload => 6 | WriteStylesheet => 7 | InstallDependencies => 8
  end.

Definition Step_eqb (a b : Step) : bool := Nat.eqb (Step_index a) (Step_index b).

(** The step an effect belongs to; logging, spinners and the effects of the
    [catch] block belong to none. *)
Definition step_of (ev : Event) : option Step :=
  match ev with
  | EvExists TargetDir _ _ => Some ValidateTarget
  | EvExists Manifest _ _ => Some ValidatePackageJSON
  | EvCheckPackage _ _ => Some ValidateFramework
  | EvGetThemes _ | EvPrompt _ _ | EvResolveConfigPaths _ _ => Some PromptAndResolve
  | EvWriteFile ConfigFile _ _ => Some PersistConfig
  | EvExists ComponentsDir _ _ | EvMkdir ComponentsDir _ => Some EnsureComponentsDir
  | EvGetInitData _ _ => Some FetchInitPayload
  | EvExists Stylesheet _ _ | EvMkdir StylesheetDir _
  | EvWriteFile Stylesheet _ _ => Some WriteStylesheet
  | EvGetPackageManager _ | EvSpawn _ _ _ _ => Some InstallDependencies
  | _ => None
  end.

(** Consecutive effects of one step count once. *)
Fixpoint compress (l : list Step) : list Step :=
  match l with
  | a :: rest =>
      match rest with
      | b :: _ => if Step_eqb a b then compress rest else a :: compress rest
      | [] => [a]
      end
  | [] => []
  end.

(** The steps a run went through, in the order it performed them. *)
Definition steps_of (tr : list Event) : list Step := compress (omap step_of tr).

Fixpoint is_prefix (l1 l2 : list Step) : bool :=
  match l1, l2 with
  | [], _ => true
  | a :: l1', b :: l2' => Step_eqb a b && is_prefix l1' l2'
  | _ :: _, [] => false
  end.

(** ** Statements the code does not satisfy *)

(** C1 as stated: after a successful run with dependencies to install the
    stylesheet holds the fetched css and the configuration file reads back
    as the configuration assembled from the prompts. *)
Definition init_always_persists : Prop :=
  forall env cwd fs c paths payload,
    succeeded env cwd fs ->
    resolved_in (trace (final env cwd fs)) = Some (c, paths) ->
    fetched_in (trace (final env cwd fs)) = Some payload ->
    init_dependencies payload <> [] ->
    disk (final env cwd fs) !! resolved_css paths
      = Some (File (init_css payload))
    /\ exists text,
         disk (final env cwd fs) !! path_resolve cwd config_file_name
           = Some (File text)
         /\ read_config text = Some c.

(** C2 as stated: cancelling any of the four questions sends an error to
    the error handler and leaves no configuration file on disk. *)
Definition cancellation_always_aborts : Prop :=
  forall env cwd fs q,
    cancelled_at q (trace (final env cwd fs)) = true ->
    handled_error (trace (final env cwd fs)) <> None
    /\ fs_exists (disk (final env cwd fs)) (path_resolve cwd config_file_name)
       = false.


(** ** Sample projects *)

(** A collaborator set for a project under [cwd]: aliases resolve below
    the project root, the package manager is pnpm, the install subprocess
    leaves the modelled files alone and [handleError] returns. *)
Definition sample_env (frameworks : list string) (themes : Error + list Theme)
    (components_path : string -> string) (deps : list string)
    (theme : Answer nat) (globalCSS components : Answer string)
    (proceed : Answer bool) : Env :=
  mkEnv (fun pkg _ _ => existsb (String.eqb pkg) frameworks)
        themes
        (fun _ => inr (mkInitPayload "body{}" deps))
        (fun cwd c _ => inr (mkResolvedPaths
                               (components_path cwd)
                               (path_resolve cwd (cfg_theme_css c))))
        (fun _ _ => "pnpm")
        (fun _ _ _ fs => (fs, None))
        (fun _ => None)
        theme globalCSS components proceed.

(** The operator presses Enter on a text question. *)
Definition keep : Answer string := Answered EmptyString.

Definition sample_themes : list Theme :=
  [mkTheme "zinc" "Zinc"; mkTheme "rose" "Rose"].

Definition sample_components (cwd : string) : string :=
  path_resolve cwd "components/getatomic".

(** The operator picks the second theme and keeps every suggestion. *)
Definition env_default : Env :=
  sample_env ["next"] (inr sample_themes) sample_components
    ["clsx"; "tailwind-merge"]
    (Answered 1%nat) keep keep (Answered true).

(** The operator answers no to the confirmation. *)
Definition env_declined : Env :=
  sample_env ["next"] (inr sample_themes) sample_components ["clsx"]
    (Answered 0%nat) keep keep (Answered false).

(** The operator cancels the confirmation. *)
Definition env_cancel_confirm : Env :=
  sample_env ["react"] (inr sample_themes) sample_components ["clsx"]
    (Answered 0%nat) keep keep Cancelled.

(** The operator cancels the stylesheet question. *)
Definition env_cancel_css : Env :=
  sample_env ["react"] (inr sample_themes) sample_components ["clsx"]
    (Answered 0%nat) Cancelled keep (Answered true).

(** The components alias does not resolve. *)
Definition env_unresolved : Env :=
  sample_env ["react"] (inr sample_themes) (fun _ => EmptyString) ["clsx"]
    (Answered 1%nat) keep keep (Answered true).

(** The operator names the configuration file as the global stylesheet. *)
Definition env_css_is_config : Env :=
  sample_env ["react"] (inr sample_themes) sample_components ["clsx"]
    (Answered 0%nat) (Answered "getatomic.components.json") keep
    (Answered true).

(** The remote service cannot be reached. *)
Definition env_offline : Env :=
  sample_env ["react"] (inl (MkError "fetch failed")) sample_components []
    (Answered 0%nat) keep keep (Answered true).


(** No framework is declared. *)
Definition env_no_framework : Env :=
  sample_env [] (inr sample_themes) sample_components []
    (Answered 0%nat) keep keep (Answered true).

Definition fs_empty_project : FS := <["/proj" := Dir]> ∅.

Definition fs_project : FS :=
  <["/proj/package.json" := File "{}"]> fs_empty_project.

(** A project initialised by an earlier run. *)
Definition fs_configured : FS :=
  <["/proj/getatomic.components.json" := File "{}"]> fs_project.

(** ** Further observations *)

Definition is_check (ev : Event) : bool :=
  match ev with EvCheckPackage _ _ => true | _ => false end.

(** A change of the disk by the pipeline, the request for the init payload
    or a subprocess: everything the command does after the confirmation. *)
Definition is_commitment (ev : Event) : bool :=
  match ev with
  | EvWriteFile _ _ _ | EvMkdir _ _ | EvGetInitData _ _ | EvSpawn _ _ _ _ => true
  | _ => false
  end.

(** The configuration given to [resolveConfigPaths], whatever it answered. *)
Definition assembled_in (tr : list Event) : option ProjectConfig :=
  head (omap (fun ev => match ev with
                        | EvResolveConfigPaths c _ => Some c
                        | _ => None
                        end) tr).

(** Where the stylesheet was written, and the text written there. *)
Definition stylesheet_written (tr : list Event) : option (string * string) :=
  head (omap (fun ev => match ev with
                        | EvWriteFile Stylesheet path text => Some (path, text)
                        | _ => None
                        end) tr).

(** [q] is [p] or one of the directories above it. *)
Definition on_path_to (q p : string) : bool :=
  existsb (String.eqb q) (ancestors (S (String.length p)) p).

(** [runInit] called on its own, as an exported function, against the
    disk [fs]. *)
Definition runInit_from (env : Env) (cwd : string) (config : Config)
    (fs : FS) : Res unit * World :=
  runInit env cwd config (mkWorld fs []).

(** The install subprocess fails. *)
Definition env_install_fails : Env :=
  mkEnv (checkPackageExists env_default)
        (getThemes_result env_default)
        (getInitData_result env_default)
        (resolveConfigPaths_result env_default)
        (getPackageManager_result env_default)
        (fun _ _ _ fs => (fs, Some (MkError "Command failed with exit code 1")))
        (handleError_exit env_default)
        (op_theme env_default) (op_globalCSS env_default)
        (op_components env_default) (op_proceed env_default).

(** The operator types a stylesheet path and an alias. *)
Definition env_typed : Env :=
  sample_env ["react"; "next"] (inr sample_themes) sample_components []
    (Answered 0%nat) (Answered "src/index.css") (Answered "~/ui")
    (Answered true).

(** A directory stands where the configuration file goes. *)
Definition fs_config_is_directory : FS :=
  <["/proj/getatomic.components.json" := Dir]> fs_project.

(** A project whose components directory and stylesheet are in place. *)
Definition fs_initialised : FS :=
  <["/proj/app/globals.css" := File "html{}"]>
    (<["/proj/app" := Dir]>
       (<["/proj/components/getatomic" := Dir]> fs_project)).

Definition sample_config : Config :=
  mkConfig
    (mkProjectConfig "rose" "app/globals.css" "@/components/getatomic")
    (mkResolvedPaths "/proj/components/getatomic" "/proj/app/globals.css").

(** The questions put to the operator, in order, each with whether it was
    cancelled. *)
Definition prompts_of (tr : list Event) : list (PromptId * bool) :=
  omap (fun ev => match ev with
                  | EvPrompt q cancelled => Some (q, cancelled)
                  | _ => None
                  end) tr.

(** [asked] follows [expected] from its start, and stops at the first
    cancelled question. *)
Fixpoint asked_in_order (expected : list PromptId)
    (asked : list (PromptId * bool)) : bool :=
  match asked, expected with
  | [], _ => true
  | _ :: _, [] => false
  | (q, cancelled) :: rest, q' :: expected' =>
      PromptId_eqb q q'
      && (if cancelled
          then match rest with [] => true | _ :: _ => false end
          else asked_in_order expected' rest)
  end.

(** ** Reasoning about runs

    [wp m w Q]: the result and the final world of [m] started in [w]
    satisfy [Q].  One rule per construct of the monad lets a proof follow
    the command statement by statement. *)

Definition wp {A} (m : M A) (w : World) (Q : Res A -> World -> Prop) : Prop :=
  Q (fst (m w)) (snd (m w)).

(** The postcondition of the first half of a [bind]. *)
Definition then_wp {A B} (k : A -> M B) (Q : Res B -> World -> Prop)
    (r : Res A) (w : World) : Prop :=
  match r with
  | Ok a => wp (k a) w Q
  | Throw e => Q (Throw e) w
  | Exit c => Q (Exit c) w
  end.

(** The postcondition of the body of a [try]. *)
Definition catch_wp {A} (handler : Error -> M A) (Q : Res A -> World -> Prop)
    (r : Res A) (w : World) : Prop :=
  match r with
  | Throw e => wp (handler e) w Q
  | _ => Q r w
  end.

(** ** The disk operations *)

Lemma write_file_inr p c (fs fs' : FS) :
  write_file p c fs = inr fs' -> fs' = <[p := File c]> fs.
Proof.
  unfold write_file. intros H.
  destruct (fs !! p) as [[|]|]; try discriminate;
    destruct (fs !! dirname p) as [[|]|]; congruence.
Qed.

Lemma unlink_file_inr p (fs fs' : FS) :
  unlink_file p fs = inr fs' -> fs' = delete p fs.
Proof.
  unfold unlink_file. intros H. destruct (fs !! p) as [[|]|]; congruence.
Qed.

Lemma ensure_dir_keeps p (fs : FS) q n :
  fs !! q = Some n -> ensure_dir p fs !! q = Some n.
Proof.
  unfold ensure_dir. intros H. destruct (fs !! p) eqn:E; [exact H|].
  rewrite lookup_insert_ne; [exact H | congruence].
Qed.

(** [mkdir -p] adds directories and leaves what is there as it is. *)
Lemma mkdir_p_keeps p (fs fs' : FS) q n :
  mkdir_p p fs = inr fs' -> fs !! q = Some n -> fs' !! q = Some n.
Proof.
  unfold mkdir_p. generalize (ancestors (S (String.length p)) p) as chain.
  intros chain H Hq.
  destruct (String.eqb p EmptyString); [discriminate|].
  destruct (is_file fs p); [discriminate|].
  destruct (existsb (is_file fs) chain); [discriminate|].
  injection H as <-.
  induction chain as [|a l IH]; simpl.
  - exact Hq.
  - apply ensure_dir_keeps, IH.
Qed.

Lemma fs_exists_Some (fs : FS) p n : fs !! p = Some n -> fs_exists fs p = true.
Proof. unfold fs_exists. intros ->. reflexivity. Qed.

Lemma fs_exists_None (fs : FS) p : fs !! p = None -> fs_exists fs p = false.
Proof. unfold fs_exists. intros ->. reflexivity. Qed.

Lemma unlink_file_File (fs : FS) p c :
  fs !! p = Some (File c) -> unlink_file p fs = inr (delete p fs).
Proof. unfold unlink_file. intros ->. reflexivity. Qed.

Lemma unlink_file_gone p (fs fs' : FS) :
  unlink_file p fs = inr fs' -> fs_exists fs' p = false.
Proof.
  intros H. apply unlink_file_inr in H as ->.
  unfold fs_exists. rewrite lookup_delete_eq. reflexivity.
Qed.

(** ** JSON round trip *)

Lemma append_cons a s t : String a s +:+ t = String a (s +:+ t).
Proof. reflexivity. Qed.

Lemma append_nil_l t : EmptyString +:+ t = t.
Proof. reflexivity. Qed.

Lemma append_assoc (s t u : string) : (s +:+ t) +:+ u = s +:+ (t +:+ u).
Proof.
  induction s as [|a s IH].
  - reflexivity.
  - rewrite !append_cons, IH. reflexivity.
Qed.

Lemma parse_escaped_char c tail :
  parse_string_body (escape_char c +:+ tail) =
  match parse_string_body tail with
  | Some (str, r) => Some (String c str, r)
  | None => None
  end.
Proof. destruct c as [[] [] [] [] [] [] [] []]; reflexivity. Qed.

Lemma parse_escaped s rest :
  parse_string_body (escape s +:+ String "034" rest) = Some (s, rest).
Proof.
  induction s as [|c s IH].
  - reflexivity.
  - cbn [escape]. rewrite append_assoc, parse_escaped_char, IH. reflexivity.
Qed.

Lemma quote_app s rest :
  quote s +:+ rest = String "034" (escape s +:+ String "034" rest).
Proof. unfold quote. rewrite append_cons, append_assoc. reflexivity. Qed.

Ltac expose_literals := repeat rewrite ?append_cons, ?append_nil_l.

(** Brings the text of a configuration to the form of a literal prefix
    followed by the escaped fields. *)
Ltac expose_config_text :=
  unfold JSON_stringify, config_to_json;
  cbn [stringify_at fst snd cfg_theme_name cfg_theme_css cfg_alias_components
       spaces Nat.mul Nat.add];
  unfold newline;
  rewrite !append_assoc;
  change (quote "theme") with (String "034" ("theme" +:+ quote_mark));
  change (quote "name") with (String "034" ("name" +:+ quote_mark));
  change (quote "css") with (String "034" ("css" +:+ quote_mark));
  change (quote "alias") with (String "034" ("alias" +:+ quote_mark));
  change (quote "components")
    with (String "034" ("components" +:+ quote_mark));
  unfold quote_mark;
  rewrite !quote_app;
  expose_literals.

Lemma parse_config_text c fuel :
  parse_value (6 + fuel) (JSON_stringify (config_to_json c))
  = Some (config_to_json c, EmptyString).
Proof.
  destruct c as [n s a]. expose_config_text.
  cbn. rewrite parse_escaped.
  cbn. rewrite parse_escaped.
  cbn. rewrite parse_escaped.
  reflexivity.
Qed.

Lemma config_text_length c :
  (5 <= String.length (JSON_stringify (config_to_json c)))%nat.
Proof.
  destruct c as [n s a]. expose_config_text. cbn [String.length]. lia.
Qed.

Lemma read_config_stringify c :
  read_config (JSON_stringify (config_to_json c)) = Some c.
Proof.
  unfold read_config, JSON_parse.
  pose proof (config_text_length c) as Hlen.
  replace (S (String.length (JSON_stringify (config_to_json c))))
    with (6 + (String.length (JSON_stringify (config_to_json c)) - 5))%nat by lia.
  rewrite parse_config_text. destruct c; reflexivity.
Qed.

Section Rules.

Context (env : Env).

Lemma wp_intro {A} (m : M A) w (Q : Res A -> World -> Prop) :
  wp m w Q -> forall r w', m w = (r, w') -> Q r w'.
Proof. unfold wp. intros H r w' E. rewrite E in H. exact H. Qed.

Lemma wp_bind {A B} (m : M A) (k : A -> M B) w Q :
  wp m w (then_wp k Q) -> wp (bind m k) w Q.
Proof.
  unfold wp, bind, then_wp. destruct (m w) as [[a|e|c] w1]; simpl; auto.
Qed.

Lemma wp_try_catch {A} (body : M A) handler w Q :
  wp body w (catch_wp handler Q) -> wp (try_catch body handler) w Q.
Proof.
  unfold wp, try_catch, catch_wp. destruct (body w) as [[a|e|c] w1]; simpl; auto.
Qed.

Lemma wp_ret {A} (a : A) w Q : Q (Ok a) w -> wp (ret a) w Q.
Proof. auto. Qed.

Lemma wp_throw {A} e w (Q : Res A -> World -> Prop) :
  Q (Throw e) w -> wp (throw e) w Q.
Proof. auto. Qed.

Lemma wp_process_exit {A} c w (Q : Res A -> World -> Prop) :
  Q (Exit c) w -> wp (process_exit c) w Q.
Proof. auto. Qed.

Lemma wp_emit ev fs tr Q :
  Q (Ok tt) (mkWorld fs (tr ++ [ev])) -> wp (emit ev) (mkWorld fs tr) Q.
Proof. auto. Qed.

Lemma wp_existsSync what p fs tr Q :
  Q (Ok (fs_exists fs p)) (mkWorld fs (tr ++ [EvExists what p (fs_exists fs p)])) ->
  wp (existsSync what p) (mkWorld fs tr) Q.
Proof. auto. Qed.

Lemma wp_on_disk op ev fs tr Q :
  (forall e, op fs = inl e -> Q (Throw e) (mkWorld fs tr)) ->
  (forall fs', op fs = inr fs' -> Q (Ok tt) (mkWorld fs' (tr ++ [ev]))) ->
  wp (on_disk op ev) (mkWorld fs tr) Q.
Proof.
  unfold wp, on_disk. cbn [disk trace]. intros Hl Hr.
  destruct (op fs) as [e|fs']; [exact (Hl _ eq_refl) | exact (Hr _ eq_refl)].
Qed.

Lemma wp_lift_result {A} (ev : option A -> Event) (res : Error + A) fs tr Q :
  (forall e, res = inl e -> Q (Throw e) (mkWorld fs (tr ++ [ev None]))) ->
  (forall a, res = inr a -> Q (Ok a) (mkWorld fs (tr ++ [ev (Some a)]))) ->
  wp (lift_result ev res) (mkWorld fs tr) Q.
Proof. unfold wp, lift_result. destruct res; simpl; auto. Qed.

Lemma wp_resolveConfigPaths cwd c fs tr Q :
  (forall e, resolveConfigPaths_result env cwd c fs = inl e ->
     Q (Throw e) (mkWorld fs (tr ++ [EvResolveConfigPaths c None]))) ->
  (forall paths, resolveConfigPaths_result env cwd c fs = inr paths ->
     Q (Ok (mkConfig c paths))
       (mkWorld fs (tr ++ [EvResolveConfigPaths c (Some paths)]))) ->
  wp (resolveConfigPaths env cwd c) (mkWorld fs tr) Q.
Proof.
  unfold wp, resolveConfigPaths. simpl.
  destruct (resolveConfigPaths_result env cwd c fs); simpl; auto.
Qed.

Lemma wp_getPackageManager cwd fs tr Q :
  Q (Ok (getPackageManager_result env cwd fs))
    (mkWorld fs (tr ++ [EvGetPackageManager (getPackageManager_result env cwd fs)])) ->
  wp (getPackageManager env cwd) (mkWorld fs tr) Q.
Proof. auto. Qed.

Lemma wp_check_package pkg cwd fs tr Q :
  Q (Ok (checkPackageExists env pkg cwd fs))
    (mkWorld fs (tr ++ [EvCheckPackage pkg (checkPackageExists env pkg cwd fs)])) ->
  wp (check_package env pkg cwd) (mkWorld fs tr) Q.
Proof. auto. Qed.

Lemma wp_execa cmd args cwd stdio fs tr Q :
  (forall fs', subprocess env cmd args cwd fs = (fs', None) ->
     Q (Ok tt) (mkWorld fs' (tr ++ [EvSpawn cmd args cwd stdio]))) ->
  (forall fs' e, subprocess env cmd args cwd fs = (fs', Some e) ->
     Q (Throw e) (mkWorld fs' (tr ++ [EvSpawn cmd args cwd stdio]))) ->
  wp (execa env cmd args cwd stdio) (mkWorld fs tr) Q.
Proof.
  unfold wp, execa. simpl.
  destruct (subprocess env cmd args cwd fs) as [fs' [e|]]; simpl; auto.
Qed.

Lemma wp_handleError e fs tr Q :
  (forall c, handleError_exit env e = Some c ->
     Q (Exit c) (mkWorld fs (tr ++ [EvHandleError e]))) ->
  (handleError_exit env e = None ->
     Q (Ok tt) (mkWorld fs (tr ++ [EvHandleError e]))) ->
  wp (handleError env e) (mkWorld fs tr) Q.
Proof.
  unfold wp, handleError. destruct (handleError_exit env e); simpl; auto.
Qed.

Lemma wp_ask_select q choices a fs tr Q :
  (forall i c, a = Answered i -> choices !! i = Some c ->
     Q (Ok (Some (value c))) (mkWorld fs (tr ++ [EvPrompt q false]))) ->
  ((a = Cancelled \/ exists i, a = Answered i /\ choices !! i = None) ->
     Q (Ok None) (mkWorld fs (tr ++ [EvPrompt q true]))) ->
  wp (ask_select q choices a) (mkWorld fs tr) Q.
Proof.
  unfold wp, ask_select. intros Hs Hn. destruct a as [i|]; simpl.
  - destruct (choices !! i) eqn:E; simpl; eauto.
  - auto.
Qed.

Lemma wp_ask_text q initial a fs tr Q :
  (forall typed, a = Answered typed ->
     Q (Ok (Some (if String.eqb typed EmptyString then initial else typed)))
       (mkWorld fs (tr ++ [EvPrompt q false]))) ->
  (a = Cancelled -> Q (Ok None) (mkWorld fs (tr ++ [EvPrompt q true]))) ->
  wp (ask_text q initial a) (mkWorld fs tr) Q.
Proof. unfold wp, ask_text. destruct a; simpl; auto. Qed.

Lemma wp_ask_confirm q a fs tr Q :
  (forall b, a = Answered b ->
     Q (Ok (Some b)) (mkWorld fs (tr ++ [EvPrompt q false]))) ->
  (a = Cancelled -> Q (Ok None) (mkWorld fs (tr ++ [EvPrompt q true]))) ->
  wp (ask_confirm q a) (mkWorld fs tr) Q.
Proof. unfold wp, ask_confirm. destruct a; simpl; auto. Qed.

End Rules.

Ltac wp_norm :=
  cbv beta iota zeta delta [then_wp catch_wp];
  cbn [negb resolvedPaths raw cfg_theme_name].

(** One statement of the command; [prune] runs on each new branch. *)
Ltac wp_step prune :=
  lazymatch goal with
  | |- wp (bind _ _) _ _ => apply wp_bind
  | |- wp (try_catch _ _) _ _ => apply wp_try_catch
  | |- wp (ret _) _ _ => apply wp_ret
  | |- wp (throw _) _ _ => apply wp_throw
  | |- wp (process_exit _) _ _ => apply wp_process_exit
  | |- wp (emit _) _ _ => apply wp_emit
  | |- wp (logger_info _) _ _ => apply wp_emit
  | |- wp (logger_error _) _ _ => apply wp_emit
  | |- wp (ora_start _) _ _ => apply wp_emit
  | |- wp (spinner_succeed _) _ _ => apply wp_emit
  | |- wp (spinner_fail _) _ _ => apply wp_emit
  | |- wp (existsSync _ _) _ _ => apply wp_existsSync
  | |- wp (fs_writeFile _ _ _) _ _ =>
      apply wp_on_disk; [intros ? ? | intros ? ?]; prune
  | |- wp (fs_mkdir_recursive _ _) _ _ =>
      apply wp_on_disk; [intros ? ? | intros ? ?]; prune
  | |- wp (fs_unlink _) _ _ =>
      apply wp_on_disk; [intros ? ? | intros ? ?]; prune
  | |- wp (getThemes _) _ _ => apply wp_lift_result; intros ? ?; prune
  | |- wp (getInitData _ _) _ _ => apply wp_lift_result; intros ? ?; prune
  | |- wp (resolveConfigPaths _ _ _) _ _ =>
      apply wp_resolveConfigPaths; intros ? ?; prune
  | |- wp (getPackageManager _ _) _ _ => apply wp_getPackageManager
  | |- wp (check_package _ _ _) _ _ => apply wp_check_package
  | |- wp (execa _ _ _ _ _) _ _ =>
      apply wp_execa; [intros ? ? | intros ? ? ?]; prune
  | |- wp (handleError _ _) _ _ =>
      apply wp_handleError; [intros ? ? | intros ?]; prune
  | |- wp (ask_select _ _ _) _ _ =>
      apply wp_ask_select; [intros ? ? ? ? | intros ?]; prune
  | |- wp (ask_text _ _ _) _ _ =>
      apply wp_ask_text; [intros ? ? | intros ?]; prune
  | |- wp (ask_confirm _ _) _ _ =>
      apply wp_ask_confirm; [intros ? ? | intros ?]; prune
  | |- wp (or_cancel _ _) _ _ => unfold or_cancel
  | |- wp (if not_truthy (Some ?b) then _ else _) _ _ =>
      destruct b eqn:?; prune; cbn [not_truthy]
  | |- wp (if not_truthy None then _ else _) _ _ => cbn [not_truthy]
  | |- wp (if negb ?b then _ else _) _ _ => destruct b eqn:?; prune
  | |- wp (if ?b then _ else _) _ _ => destruct b eqn:?; prune
  | |- wp (match ?x with _ => _ end) _ _ => destruct x eqn:?; prune
  | |- wp (init _ _) _ _ => unfold init
  | |- wp (init_try _ _) _ _ => unfold init_try
  | |- wp (init_catch _ _ _) _ _ => unfold init_catch
  | |- wp (promptForProjectDetails _ _) _ _ => unfold promptForProjectDetails
  | |- wp (runInit _ _ _) _ _ => unfold runInit
  end; wp_norm.

(** Every path of the command. *)
Ltac wp_run := repeat wp_step idtac.

(** Two hypotheses that give one term two values: the branch is closed when
    the values differ, and the values are identified when they agree. *)
Ltac clash :=
  match goal with
  | H : ?x = _, H' : ?x = _ |- _ =>
      rewrite H in H';
      first [ discriminate H'
            | injection H' as H'; try subst
            | clear H' ]
  end.

(** The paths compatible with the hypotheses. *)
Ltac wp_run_pruned := repeat wp_step ltac:(try discriminate; try clash).

Lemma run_wp env cwd fs (Q : Res unit -> World -> Prop) :
  wp (init env cwd) (mkWorld fs []) Q ->
  Q (outcome env cwd fs) (final env cwd fs).
Proof. intros H. exact H. Qed.

(** Starts the proof of a statement about the run [env], [cwd], [fs]. *)
Ltac wp_start env cwd fs :=
  unfold succeeded;
  pattern (outcome env cwd fs), (final env cwd fs);
  apply run_wp.

Arguments write_file : simpl never.
Arguments mkdir_p : simpl never.
Arguments unlink_file : simpl never.
Arguments fs_exists : simpl never.
Arguments path_resolve : simpl never.
Arguments dirname : simpl never.
Arguments JSON_stringify : simpl never.
Arguments String.eqb : simpl never.
Arguments String.append : simpl never.

(** ** Validation *)

(** C5: when the target directory exists but has no package.json at its
    root, the command logs the missing manifest and ends the process with
    code 1; up to there it has put no question, sent no request, started no
    subprocess and left the disk as it was, so no configuration file was
    written. *)
Theorem init_without_manifest env cwd fs :
  fs_exists fs cwd = true ->
  fs_exists fs (path_resolve cwd "package.json") = false ->
  outcome env cwd fs = Exit 1
  /\ exit_status (outcome env cwd fs) <> 0
  /\ disk (final env cwd fs) = fs
  /\ config_written (trace (final env cwd fs)) = None
  /\ forallb is_passive (trace (final env cwd fs)) = true.
Proof.
  intros Htarget Hmanifest.
  wp_start env cwd fs. wp_run_pruned.
  simpl. repeat split; try reflexivity. discriminate.
Qed.

(** C9: with the target directory and its package.json in place, the
    validation succeeds exactly when [checkPackageExists] finds one of the
    supported frameworks; when it finds none, the command ends the process
    with code 1 before any question, request or change of the disk. *)
Theorem framework_validation env cwd fs :
  fs_exists fs cwd = true ->
  fs_exists fs (path_resolve cwd "package.json") = true ->
  (validated (trace (final env cwd fs)) = true <->
   existsb (fun pkg => checkPackageExists env pkg cwd fs) supported_frameworks
     = true)
  /\ (existsb (fun pkg => checkPackageExists env pkg cwd fs) supported_frameworks
        = false ->
      outcome env cwd fs = Exit 1
      /\ exit_status (outcome env cwd fs) <> 0
      /\ disk (final env cwd fs) = fs
      /\ forallb is_passive (trace (final env cwd fs)) = true).
Proof.
  intros Htarget Hmanifest.
  unfold supported_frameworks. cbn [existsb].
  wp_start env cwd fs.
  wp_run_pruned.
  all: simpl; repeat split; intros; try discriminate; try reflexivity.
Qed.

(** ** The prompt flow *)

(** C4: when the operator answers no to the final confirmation, the
    command ends the process with code 0 without the error handler being
    involved, and it has written no file: the disk is as it was. *)
Theorem declined_confirmation env cwd fs :
  op_proceed env = Answered false ->
  answered_at PProceed (trace (final env cwd fs)) = true ->
  outcome env cwd fs = Exit 0
  /\ exit_status (outcome env cwd fs) = 0
  /\ handled_error (trace (final env cwd fs)) = None
  /\ config_written (trace (final env cwd fs)) = None
  /\ forallb (fun ev => negb (is_write ev)) (trace (final env cwd fs)) = true
  /\ disk (final env cwd fs) = fs.
Proof.
  intros Hno.
  wp_start env cwd fs.
  wp_run_pruned.
  all: simpl; intros; try discriminate; repeat split.
Qed.

(** C6: when [resolveConfigPaths] returns an empty string for the
    components path or for the stylesheet path, the command throws its
    alias error, which reaches the error handler; the confirmation is never
    put, no file or directory is created, the init payload is not requested
    and no subprocess is started. *)
Theorem empty_resolved_path env cwd fs c paths :
  resolved_in (trace (final env cwd fs)) = Some (c, paths) ->
  resolved_components paths = EmptyString
  \/ resolved_css paths = EmptyString ->
  handled_error (trace (final env cwd fs))
    = Some (MkError
        "Failed to resolve components alias, please enter a valid alias.")
  /\ ~ succeeded env cwd fs
  /\ answered_at PProceed (trace (final env cwd fs)) = false
  /\ cancelled_at PProceed (trace (final env cwd fs)) = false
  /\ config_written (trace (final env cwd fs)) = None
  /\ fetched_in (trace (final env cwd fs)) = None
  /\ forallb (fun ev => negb (is_write ev || is_mkdir ev || is_spawn ev))
       (trace (final env cwd fs)) = true.
Proof.
  wp_start env cwd fs.
  wp_run.
  all: simpl; intros Hres Hempty; try discriminate.
  all: injection Hres as <- <-.
  all: try match goal with
       | H : String.eqb _ EmptyString || String.eqb _ EmptyString = false
         |- _ =>
           apply orb_false_iff in H as [E1 E2];
           apply String.eqb_neq in E1, E2;
           destruct Hempty; congruence
       end.
  all: repeat split; try reflexivity; intros [? ?]; discriminate.
Qed.

(** C2, as the code has it: cancelling the theme, stylesheet or alias
    question throws the termination error, which reaches the error handler;
    cancelling the final confirmation ends the process with code 0, no
    error being raised, and leaves the disk as it was. In all four cases
    the run writes no file, so it persists no configuration. *)
Theorem cancelled_prompt env cwd fs q :
  cancelled_at q (trace (final env cwd fs)) = true ->
  config_written (trace (final env cwd fs)) = None
  /\ forallb (fun ev => negb (is_write ev)) (trace (final env cwd fs)) = true
  /\ (q <> PProceed ->
      handled_error (trace (final env cwd fs))
        = Some (MkError "Terminated Atomic UI setup."))
  /\ (q = PProceed ->
      outcome env cwd fs = Exit 0
      /\ handled_error (trace (final env cwd fs)) = None
      /\ disk (final env cwd fs) = fs).
Proof.
  wp_start env cwd fs.
  wp_run.
  all: simpl; try (intros; discriminate).
  all: destruct q; simpl; intros; try discriminate;
    repeat split; intros; try reflexivity; try congruence.
Qed.

(** ** The orchestrator *)

(** C7: the steps a run goes through, in the order it performs them, are
    an initial part of the pipeline ValidateTarget, ValidatePackageJSON,
    ValidateFramework, PromptAndResolve, PersistConfig,
    EnsureComponentsDir, FetchInitPayload, WriteStylesheet,
    InstallDependencies: no step comes before an earlier one and none is
    entered twice, and every run starts with ValidateTarget. A run that
    succeeds has resolved the paths, written the configuration file,
    fetched the init payload and written the stylesheet with it; when the
    payload has dependencies the run went through the whole pipeline, and
    when it has none, through all of it but the installation. *)
Theorem pipeline_order env cwd fs :
  is_prefix (steps_of (trace (final env cwd fs))) pipeline = true
  /\ head (steps_of (trace (final env cwd fs))) = Some ValidateTarget
  /\ (succeeded env cwd fs ->
      exists c paths payload,
        resolved_in (trace (final env cwd fs)) = Some (c, paths)
        /\ config_written (trace (final env cwd fs))
           = Some (path_resolve cwd config_file_name,
                   JSON_stringify (config_to_json c))
        /\ fetched_in (trace (final env cwd fs)) = Some payload
        /\ stylesheet_written (trace (final env cwd fs))
           = Some (resolved_css paths, init_css payload)
        /\ (init_dependencies payload <> [] ->
            steps_of (trace (final env cwd fs)) = pipeline)
        /\ (init_dependencies payload = [] ->
            steps_of (trace (final env cwd fs)) = removelast pipeline)).
Proof.
  wp_start env cwd fs.
  wp_run.
  all: split; [reflexivity|].
  all: split; [reflexivity|].
  all: simpl; intros [Hok Hnone]; try discriminate.
  all: do 3 eexists.
  all: do 4 (split; [reflexivity|]).
  all: split; intros Hdeps; try reflexivity; congruence.
Qed.

(** The spawns of a run, once the init payload is fetched: none when the
    dependency list is empty, at most one otherwise, and exactly one as
    soon as the stylesheet is written. *)
Lemma install_spawns env cwd fs payload :
  fetched_in (trace (final env cwd fs)) = Some payload ->
  (init_dependencies payload = [] ->
     List.filter is_spawn (trace (final env cwd fs)) = []
     /\ (succeeded env cwd fs ->
         last (trace (final env cwd fs))
           = Some (EvLogInfo "No dependencies to install.")))
  /\ (init_dependencies payload <> [] ->
      (detected_in (trace (final env cwd fs)) = None ->
       List.filter is_spawn (trace (final env cwd fs)) = [])
      /\ (forall pm, detected_in (trace (final env cwd fs)) = Some pm ->
          List.filter is_spawn (trace (final env cwd fs))
            = [EvSpawn pm
                 ((if String.eqb pm "npm" then "install" else "add")
                    :: init_dependencies payload)
                 cwd StdioInherit])
      /\ (existsb (fun ev => match ev with
                             | EvWriteFile Stylesheet _ _ => true
                             | _ => false
                             end) (trace (final env cwd fs)) = true ->
          detected_in (trace (final env cwd fs)) <> None)
      /\ (succeeded env cwd fs ->
          ends_with_install (trace (final env cwd fs)) = true)
      /\ (detected_in (trace (final env cwd fs)) <> None ->
          ~ succeeded env cwd fs ->
          handled_error (trace (final env cwd fs)) <> None)).
Proof.
  wp_start env cwd fs.
  wp_run.
  all: simpl; intros Hp; try discriminate.
  all: injection Hp as <-.
  all: split; [intros Hnil | intros Hsome]; try congruence.
  all: repeat split; try reflexivity; try discriminate; intros;
    repeat match goal with H : _ /\ _ |- _ => destruct H end;
    try discriminate; try congruence.
  all: unfold detected_in, handled_error in *; simpl in *;
    try discriminate; try congruence.
  all: try (exfalso;
            match goal with H : ~ _ |- _ => apply H; split; reflexivity end).
  all: match goal with H : Some _ = Some _ |- _ => injection H as <- end;
    match goal with H : init_dependencies _ = _ |- _ => rewrite H end;
    reflexivity.
Qed.

(** The command and the subprocess: the subprocess runs on the disk the
    stylesheet was just written to; the run goes on with the disk the
    subprocess leaves and succeeds when it succeeds, and hands its error
    to [handleError] when it fails. *)
Lemma install_settles env cwd fs payload :
  fetched_in (trace (final env cwd fs)) = Some payload ->
  init_dependencies payload <> [] ->
  forall pm, detected_in (trace (final env cwd fs)) = Some pm ->
    exists fs0 path,
      getPackageManager_result env cwd fs0 = pm
      /\ stylesheet_written (trace (final env cwd fs))
         = Some (path, init_css payload)
      /\ fs0 !! path = Some (File (init_css payload))
      /\ match subprocess env pm
                 ((if String.eqb pm "npm" then "install" else "add")
                    :: init_dependencies payload) cwd fs0 with
         | (fs1, None) =>
             succeeded env cwd fs
             /\ disk (final env cwd fs) = fs1
             /\ ends_with_install (trace (final env cwd fs)) = true
         | (fs1, Some e) =>
             handled_error (trace (final env cwd fs)) = Some e
             /\ ends_with_install (trace (final env cwd fs)) = false
             /\ ~ succeeded env cwd fs
             /\ (disk (final env cwd fs) = fs1
                 \/ disk (final env cwd fs)
                    = delete (path_resolve cwd config_file_name) fs1)
         end.
Proof.
  wp_start env cwd fs.
  wp_run.
  all: simpl; intros Hp Hdeps pm Hdet; try discriminate.
  all: unfold detected_in in Hdet; simpl in Hdet; try discriminate.
  all: injection Hp as <-; injection Hdet as <-.
  all: do 2 eexists.
  all: split; [reflexivity|]; split; [reflexivity|].
  all: repeat match goal with
       | H : write_file _ _ _ = inr _ |- _ =>
           apply write_file_inr in H; subst
       end.
  all: split; [apply lookup_insert_eq|].
  all: match goal with
       | Hl : init_dependencies _ = _ :: _, H : subprocess _ _ _ _ _ = _
         |- _ => rewrite Hl; rewrite H
       end.
  all: repeat split; try reflexivity; try (intros [? ?]; discriminate).
  all: first [ left; reflexivity
             | right; apply unlink_file_inr; assumption ].
Qed.

(** C8: once the init payload is fetched, a run starts no subprocess when
    the dependency list is empty, and a successful one ends on the log line
    saying so. When the list is not empty, the run starts at most one
    subprocess; as soon as the stylesheet is written it starts exactly
    one: the detected package manager, with its install verb followed by
    the dependencies, in the target directory, on the operator's standard
    streams. The command waits for it: the subprocess runs on the disk as
    the stylesheet write left it, the run continues from the disk the
    subprocess leaves, and its result decides the run. When the
    subprocess succeeds the run succeeds, ending on the installation
    spinner with that disk as the final one; when it fails, its error is
    the one given to the error handler and the spinner never succeeds. *)
Theorem install_dependencies env cwd fs payload :
  fetched_in (trace (final env cwd fs)) = Some payload ->
  ((init_dependencies payload = [] ->
      List.filter is_spawn (trace (final env cwd fs)) = []
      /\ (succeeded env cwd fs ->
          last (trace (final env cwd fs))
            = Some (EvLogInfo "No dependencies to install.")))
   /\ (init_dependencies payload <> [] ->
       (detected_in (trace (final env cwd fs)) = None ->
        List.filter is_spawn (trace (final env cwd fs)) = [])
       /\ (forall pm, detected_in (trace (final env cwd fs)) = Some pm ->
           List.filter is_spawn (trace (final env cwd fs))
             = [EvSpawn pm
                  ((if String.eqb pm "npm" then "install" else "add")
                     :: init_dependencies payload)
                  cwd StdioInherit])
       /\ (existsb (fun ev => match ev with
                              | EvWriteFile Stylesheet _ _ => true
                              | _ => false
                              end) (trace (final env cwd fs)) = true ->
           detected_in (trace (final env cwd fs)) <> None)
       /\ (succeeded env cwd fs ->
           ends_with_install (trace (final env cwd fs)) = true)
       /\ (detected_in (trace (final env cwd fs)) <> None ->
           ~ succeeded env cwd fs ->
           handled_error (trace (final env cwd fs)) <> None)))
  /\ (init_dependencies payload <> [] ->
      forall pm, detected_in (trace (final env cwd fs)) = Some pm ->
        exists fs0 path,
          getPackageManager_result env cwd fs0 = pm
          /\ stylesheet_written (trace (final env cwd fs))
             = Some (path, init_css payload)
          /\ fs0 !! path = Some (File (init_css payload))
          /\ match subprocess env pm
                     ((if String.eqb pm "npm" then "install" else "add")
                        :: init_dependencies payload) cwd fs0 with
             | (fs1, None) =>
                 succeeded env cwd fs
                 /\ disk (final env cwd fs) = fs1
                 /\ ends_with_install (trace (final env cwd fs)) = true
             | (fs1, Some e) =>
                 handled_error (trace (final env cwd fs)) = Some e
                 /\ ends_with_install (trace (final env cwd fs)) = false
                 /\ ~ succeeded env cwd fs
                 /\ (disk (final env cwd fs) = fs1
                     \/ disk (final env cwd fs)
                        = delete (path_resolve cwd config_file_name) fs1)
             end).
Proof.
  intros Hfetched. split.
  - exact (install_spawns env cwd fs payload Hfetched).
  - exact (install_settles env cwd fs payload Hfetched).
Qed.

Lemma lookup_map_Some {A B} (f : A -> B) (l : list A) (i : nat) (y : B) :
  map f l !! i = Some y -> exists x, l !! i = Some x /\ y = f x.
Proof.
  revert i. induction l as [|x l IH]; intros [|i] H; simpl in H;
    try discriminate.
  - injection H as <-. exists x. split; reflexivity.
  - apply IH in H. exact H.
Qed.

(** C10: whenever a run writes the configuration file, it writes it at
    the target root, and the text it writes is the serialised
    configuration whose [theme.name] is the id of the theme the operator
    picked in the list [getThemes] returned. *)
Theorem persisted_theme_is_listed env cwd fs path text :
  config_written (trace (final env cwd fs)) = Some (path, text) ->
  path = path_resolve cwd config_file_name
  /\ exists themes i t c,
       themes_in (trace (final env cwd fs)) = Some themes
       /\ getThemes_result env = inr themes
       /\ op_theme env = Answered i
       /\ themes !! i = Some t
       /\ text = JSON_stringify (config_to_json c)
       /\ read_config text = Some c
       /\ cfg_theme_name c = theme_id t.
Proof.
  wp_start env cwd fs.
  wp_run.
  all: simpl; intros Hw; try discriminate.
  all: injection Hw as <- <-; split; [reflexivity|].
  all: match goal with
       | H : map _ _ !! _ = Some _ |- _ =>
           apply lookup_map_Some in H as (t & Ht & ->)
       end.
  all: do 4 eexists; repeat split; try eassumption; try reflexivity.
  all: apply read_config_stringify.
Qed.

(** Reads a path back through the writes and directory creations of a run. *)
Ltac read_back :=
  repeat first
    [ rewrite lookup_insert_eq; reflexivity
    | rewrite lookup_insert_ne by congruence
    | eapply mkdir_p_keeps; [eassumption|] ].

(** C1, as the code has it: after a successful run, provided the resolved
    stylesheet path is not the path of the configuration file itself and
    the install subprocess leaves both files alone, the file at the
    resolved stylesheet path holds exactly the fetched css, and the
    configuration file reads back as the configuration assembled from the
    prompts: the id of the chosen theme, the stylesheet path and the alias
    as typed (or as suggested, when left empty). *)
Theorem init_persists env cwd fs c paths payload :
  succeeded env cwd fs ->
  resolved_in (trace (final env cwd fs)) = Some (c, paths) ->
  fetched_in (trace (final env cwd fs)) = Some payload ->
  resolved_css paths <> path_resolve cwd config_file_name ->
  (forall cmd args fs0 q,
     q = resolved_css paths \/ q = path_resolve cwd config_file_name ->
     fst (subprocess env cmd args cwd fs0) !! q = fs0 !! q) ->
  disk (final env cwd fs) !! resolved_css paths
    = Some (File (init_css payload))
  /\ (exists text,
        disk (final env cwd fs) !! path_resolve cwd config_file_name
          = Some (File text)
        /\ read_config text = Some c)
  /\ (exists themes i t typed_css typed_alias,
        getThemes_result env = inr themes
        /\ op_theme env = Answered i
        /\ themes !! i = Some t
        /\ op_globalCSS env = Answered typed_css
        /\ op_components env = Answered typed_alias
        /\ c = mkProjectConfig (theme_id t)
                 (if String.eqb typed_css EmptyString
                  then "app/globals.css" else typed_css)
                 (if String.eqb typed_alias EmptyString
                  then "@/components/getatomic" else typed_alias)).
Proof.
  wp_start env cwd fs.
  wp_run.
  all: simpl; intros [Hok Hnone] Hres Hfetch Hne Hframe; try discriminate.
  all: injection Hres as <- <-; injection Hfetch as <-.
  all: repeat match goal with
       | H : write_file _ _ _ = inr _ |- _ =>
           apply write_file_inr in H; subst
       | H : subprocess _ ?cmd ?args _ ?fs0 = (?fs1, _)
         |- context [?fs1 !! ?q] =>
           let Hf := fresh in
           pose proof (Hframe cmd args fs0 q) as Hf;
           rewrite H in Hf; cbn [fst] in Hf; rewrite Hf by auto; clear Hf
       | H : map _ _ !! _ = Some _ |- _ =>
           apply lookup_map_Some in H as (t & Ht & ->)
       end.
  all: simpl in Hne.
  all: split; [read_back|].
  all: split;
    [ eexists; split; [read_back | apply read_config_stringify]
    | do 5 eexists; repeat split; try eassumption; reflexivity ].
Qed.

(** ** The error handler *)






(** X14: when [handleError] returns instead of ending the process, the
    [catch] block does nothing but look for getatomic.components.json at
    the target root and unlink it if it is there. If it completes, no
    configuration file is left, whoever wrote it: a file that was there
    before the run and that the run never wrote is deleted, the rest of
    the disk staying as it was; and when no such file is there nothing
    is unlinked and the action returns with the disk as it was. *)
Theorem handler_cleanup env cwd fs e :
  handled_error (trace (final env cwd fs)) = Some e ->
  forallb (is_cleanup cwd) (after_handler (trace (final env cwd fs))) = true
  /\ (forall code, handleError_exit env e = Some code ->
        outcome env cwd fs = Exit code
        /\ after_handler (trace (final env cwd fs)) = [])
  /\ (outcome env cwd fs = Ok tt ->
      fs_exists (disk (final env cwd fs)) (path_resolve cwd config_file_name)
        = false)
  /\ (forall old,
        fs !! path_resolve cwd config_file_name = Some (File old) ->
        config_written (trace (final env cwd fs)) = None ->
        handleError_exit env e = None ->
        outcome env cwd fs = Ok tt
        /\ disk (final env cwd fs)
           = delete (path_resolve cwd config_file_name) fs)
  /\ (fs !! path_resolve cwd config_file_name = None ->
      config_written (trace (final env cwd fs)) = None ->
      handleError_exit env e = None ->
      outcome env cwd fs = Ok tt
      /\ disk (final env cwd fs) = fs
      /\ existsb is_unlink (trace (final env cwd fs)) = false).
Proof.
  wp_start env cwd fs.
  wp_run.
  all: simpl; intros He; try discriminate.
  all: injection He as <-.
  all: rewrite ?String.eqb_refl.
  all: repeat split; try reflexivity; try discriminate; intros;
    try congruence; try eassumption.
  all: try (eapply unlink_file_gone; eassumption).
  all: repeat match goal with
       | Hpre : ?fs !! ?p = Some (File _), H : unlink_file ?p ?fs = _ |- _ =>
           rewrite (unlink_file_File _ _ _ Hpre) in H
       | Hpre : ?fs !! ?p = Some _, H : fs_exists ?fs ?p = false |- _ =>
           rewrite (fs_exists_Some _ _ _ Hpre) in H
       | Hpre : ?fs !! ?p = None, H : fs_exists ?fs ?p = true |- _ =>
           rewrite (fs_exists_None _ _ Hpre) in H
       end; try discriminate; try congruence.
Qed.

(** ** Sample runs *)

Example default_run_steps :
  outcome env_default "/proj" fs_project = Ok tt
  /\ steps_of (trace (final env_default "/proj" fs_project)) = pipeline.
Proof. split; vm_compute; reflexivity. Qed.

Example default_run_disk :
  map fst (map_to_list (disk (final env_default "/proj" fs_project)))
  ≡ₚ ["/"; "/proj"; "/proj/package.json"; "/proj/getatomic.components.json";
      "/proj/components"; "/proj/components/getatomic"; "/proj/app";
      "/proj/app/globals.css"].
Proof. vm_compute. solve_Permutation. Qed.

Example css_named_as_config_run :
  outcome env_css_is_config "/proj" fs_project = Ok tt
  /\ disk (final env_css_is_config "/proj" fs_project)
       !! "/proj/getatomic.components.json" = Some (File "body{}").
Proof. split; vm_compute; reflexivity. Qed.

Example cancelled_confirmation_run :
  outcome env_cancel_confirm "/proj" fs_project = Exit 0
  /\ handled_error (trace (final env_cancel_confirm "/proj" fs_project)) = None.
Proof. split; vm_compute; reflexivity. Qed.

Example offline_run :
  handled_error (trace (final env_offline "/proj" fs_configured))
    = Some (MkError "fetch failed")
  /\ disk (final env_offline "/proj" fs_configured)
       !! "/proj/getatomic.components.json" = None.
Proof. split; vm_compute; reflexivity. Qed.

(** ** The statements at sample projects *)

Lemma init_without_manifest_witness :
  outcome env_default "/proj" fs_empty_project = Exit 1
  /\ disk (final env_default "/proj" fs_empty_project) = fs_empty_project.
Proof.
  destruct (init_without_manifest env_default "/proj" fs_empty_project)
    as (Hexit & _ & Hdisk & _).
  - vm_compute. reflexivity.
  - vm_compute. reflexivity.
  - split; assumption.
Defined.

Lemma framework_validation_witness :
  validated (trace (final env_no_framework "/proj" fs_project)) = false
  /\ outcome env_no_framework "/proj" fs_project = Exit 1.
Proof.
  destruct (framework_validation env_no_framework "/proj" fs_project)
    as (Hiff & Hnone).
  - vm_compute. reflexivity.
  - vm_compute. reflexivity.
  - split.
    + destruct (validated (trace (final env_no_framework "/proj" fs_project)));
        [|reflexivity].
      destruct Hiff as [Hvalid _]. specialize (Hvalid eq_refl).
      vm_compute in Hvalid. discriminate Hvalid.
    + apply Hnone. vm_compute. reflexivity.
Defined.

Lemma declined_confirmation_witness :
  outcome env_declined "/proj" fs_project = Exit 0
  /\ disk (final env_declined "/proj" fs_project) = fs_project.
Proof.
  destruct (declined_confirmation env_declined "/proj" fs_project)
    as (Hexit & _ & _ & _ & _ & Hdisk).
  - reflexivity.
  - vm_compute. reflexivity.
  - split; assumption.
Defined.

Lemma empty_resolved_path_witness :
  handled_error (trace (final env_unresolved "/proj" fs_project))
    = Some (MkError
        "Failed to resolve components alias, please enter a valid alias.")
  /\ config_written (trace (final env_unresolved "/proj" fs_project)) = None.
Proof.
  destruct (empty_resolved_path env_unresolved "/proj" fs_project
              (mkProjectConfig "rose" "app/globals.css" "@/components/getatomic")
              (mkResolvedPaths EmptyString "/proj/app/globals.css"))
    as (Hthrown & _ & _ & _ & Hnone & _).
  - vm_compute. reflexivity.
  - left. reflexivity.
  - split; assumption.
Defined.

Lemma cancelled_prompt_witness :
  handled_error (trace (final env_cancel_css "/proj" fs_project))
    = Some (MkError "Terminated Atomic UI setup.")
  /\ config_written (trace (final env_cancel_css "/proj" fs_project)) = None.
Proof.
  destruct (cancelled_prompt env_cancel_css "/proj" fs_project PGlobalCSS)
    as (Hnone & _ & Hthrown & _).
  - vm_compute. reflexivity.
  - split; [apply Hthrown; discriminate | exact Hnone].
Defined.

Lemma install_dependencies_witness :
  List.filter is_spawn (trace (final env_default "/proj" fs_project))
  = [EvSpawn "pnpm" ["add"; "clsx"; "tailwind-merge"] "/proj" StdioInherit].
Proof.
  destruct (install_dependencies env_default "/proj" fs_project
              (mkInitPayload "body{}" ["clsx"; "tailwind-merge"]))
    as ((_ & Hsome) & _).
  - vm_compute. reflexivity.
  - destruct Hsome as (_ & Hone & _); [discriminate|].
    apply (Hone "pnpm"). vm_compute. reflexivity.
Defined.

Lemma persisted_theme_is_listed_witness :
  exists c, cfg_theme_name c = "rose"
    /\ config_written (trace (final env_default "/proj" fs_project))
       = Some ("/proj/getatomic.components.json",
               JSON_stringify (config_to_json c)).
Proof.
  destruct (persisted_theme_is_listed env_default "/proj" fs_project
              "/proj/getatomic.components.json"
              (JSON_stringify (config_to_json
                 (mkProjectConfig "rose" "app/globals.css"
                    "@/components/getatomic"))))
    as (_ & themes & i & t & c & _ & _ & _ & _ & _ & _ & _).
  - vm_compute. reflexivity.
  - exists (mkProjectConfig "rose" "app/globals.css" "@/components/getatomic").
    split; [reflexivity | vm_compute; reflexivity].
Defined.

Lemma init_persists_witness :
  disk (final env_default "/proj" fs_project) !! "/proj/app/globals.css"
    = Some (File "body{}")
  /\ exists text,
       disk (final env_default "/proj" fs_project)
         !! "/proj/getatomic.components.json" = Some (File text)
       /\ read_config text
          = Some (mkProjectConfig "rose" "app/globals.css"
                    "@/components/getatomic").
Proof.
  destruct (init_persists env_default "/proj" fs_project
              (mkProjectConfig "rose" "app/globals.css" "@/components/getatomic")
              (mkResolvedPaths "/proj/components/getatomic"
                 "/proj/app/globals.css")
              (mkInitPayload "body{}" ["clsx"; "tailwind-merge"]))
    as (Hcss & Hconfig & _).
  - split; vm_compute; reflexivity.
  - vm_compute. reflexivity.
  - vm_compute. reflexivity.
  - vm_compute. discriminate.
  - intros cmd args fs0 q _. reflexivity.
  - split; [exact Hcss | exact Hconfig].
Defined.

Lemma pipeline_order_witness :
  steps_of (trace (final env_default "/proj" fs_project)) = pipeline.
Proof.
  destruct (pipeline_order env_default "/proj" fs_project) as (_ & _ & Hrun).
  destruct Hrun as (c & paths & payload & _ & _ & Hfetched & _ & Hfull & _).
  - split; vm_compute; reflexivity.
  - apply Hfull. vm_compute in Hfetched. injection Hfetched as <-.
    discriminate.
Defined.


Lemma handler_cleanup_witness :
  outcome env_offline "/proj" fs_configured = Ok tt
  /\ disk (final env_offline "/proj" fs_configured)
     = delete "/proj/getatomic.components.json" fs_configured.
Proof.
  destruct (handler_cleanup env_offline "/proj" fs_configured
              (MkError "fetch failed"))
    as (_ & _ & _ & Hdeleted & _).
  - vm_compute. reflexivity.
  - apply (Hdeleted "{}"); vm_compute; reflexivity.
Defined.

(** ** Where the statements fail *)

(** C1: the operator names getatomic.components.json as the global
    stylesheet. The run succeeds, and the stylesheet, written last, has
    replaced the configuration: the file holds the css, which does not
    read back as the configuration. *)
Lemma stylesheet_replaces_config : ~ init_always_persists.
Proof.
  intros Hclaim.
  destruct (Hclaim env_css_is_config "/proj" fs_project
              (mkProjectConfig "zinc" "getatomic.components.json"
                 "@/components/getatomic")
              (mkResolvedPaths "/proj/components/getatomic"
                 "/proj/getatomic.components.json")
              (mkInitPayload "body{}" ["clsx"]))
    as (_ & text & Htext & Hread).
  - split; vm_compute; reflexivity.
  - vm_compute. reflexivity.
  - vm_compute. reflexivity.
  - discriminate.
  - vm_compute in Htext. injection Htext as <-.
    vm_compute in Hread. discriminate Hread.
Qed.

(** C2: the operator cancels the final confirmation. The process ends
    with code 0 and no error reaches the error handler. *)
Lemma cancelled_confirmation_is_no_error : ~ cancellation_always_aborts.
Proof.
  intros Hclaim.
  destruct (Hclaim env_cancel_confirm "/proj" fs_project PProceed)
    as (Hhandled & _).
  - vm_compute. reflexivity.
  - apply Hhandled. vm_compute. reflexivity.
Qed.

(** ** Further properties of the command *)

(** X1: when the target directory does not exist, the command reports the
    path and ends the process with code 1 at once: the validation spinner
    is never started and the manifest is never looked for. *)
Theorem init_without_target env cwd fs :
  fs_exists fs cwd = false ->
  outcome env cwd fs = Exit 1
  /\ final env cwd fs
     = mkWorld fs
         [EvLogInfo "Initializing Atomic UI";
          EvExists TargetDir cwd false;
          EvLogError ("The path " +:+ cwd
                        +:+ " does not exist. Please try again.")].
Proof.
  intros Hmissing.
  wp_start env cwd fs. wp_run_pruned.
  split; reflexivity.
Qed.

(** X2: the framework check looks React up first and looks Next up only
    when React is missing. *)
Theorem framework_lookup_order env cwd fs :
  fs_exists fs cwd = true ->
  fs_exists fs (path_resolve cwd "package.json") = true ->
  List.filter is_check (trace (final env cwd fs))
  = if checkPackageExists env "react" cwd fs
    then [EvCheckPackage "react" true]
    else [EvCheckPackage "react" false;
          EvCheckPackage "next" (checkPackageExists env "next" cwd fs)].
Proof.
  intros Htarget Hmanifest.
  wp_start env cwd fs. wp_run_pruned.
  all: reflexivity.
Qed.

(** X3: when [getThemes] rejects, its error is the one given to
    [handleError]; the operator is asked nothing, no alias is resolved and
    nothing is written, created or started. *)
Theorem themes_unavailable env cwd fs e :
  getThemes_result env = inl e ->
  validated (trace (final env cwd fs)) = true ->
  handled_error (trace (final env cwd fs)) = Some e
  /\ assembled_in (trace (final env cwd fs)) = None
  /\ forallb (fun ev => negb (is_prompt ev || is_commitment ev))
       (trace (final env cwd fs)) = true.
Proof.
  intros Hthemes.
  wp_start env cwd fs. wp_run_pruned.
  all: simpl; intros; try discriminate; repeat split.
Qed.

(** X4: the configuration the prompt flow assembles never has an empty
    stylesheet path or an empty alias: a text question left empty gives
    its suggestion, app/globals.css or @/components/getatomic, and
    anything typed is taken as it is. *)
Theorem assembled_config_fields env cwd fs c :
  assembled_in (trace (final env cwd fs)) = Some c ->
  cfg_theme_css c <> EmptyString
  /\ cfg_alias_components c <> EmptyString
  /\ (forall typed, op_globalCSS env = Answered typed ->
        (typed = EmptyString -> cfg_theme_css c = "app/globals.css")
        /\ (typed <> EmptyString -> cfg_theme_css c = typed))
  /\ (forall typed, op_components env = Answered typed ->
        (typed = EmptyString ->
         cfg_alias_components c = "@/components/getatomic")
        /\ (typed <> EmptyString -> cfg_alias_components c = typed)).
Proof.
  wp_start env cwd fs. wp_run.
  all: simpl; intros Hc; try discriminate.
  all: injection Hc as <-; simpl.
  all: repeat match goal with
       | |- context [String.eqb ?t EmptyString] =>
           destruct (String.eqb_spec t EmptyString)
       end.
  all: repeat split; intros; try discriminate; try congruence.
Qed.

(** X5: nothing is committed without the operator's yes: if a run writes
    a file, creates a directory, requests the init payload or starts a
    subprocess, then the project passed validation and the operator
    answered yes to the confirmation. *)
Theorem commitment_needs_consent env cwd fs :
  existsb is_commitment (trace (final env cwd fs)) = true ->
  validated (trace (final env cwd fs)) = true
  /\ answered_at PProceed (trace (final env cwd fs)) = true
  /\ op_proceed env = Answered true.
Proof.
  wp_start env cwd fs. wp_run.
  all: simpl; intros; try discriminate; repeat split; congruence.
Qed.

(** X6: no error thrown in the [try] block escapes the command. The
    action rejects only from inside the [catch] block: [handleError] has
    returned, getatomic.components.json exists, and the rejection is the
    one of the [unlink] that failed on it. *)
Theorem only_cleanup_rejects env cwd fs e :
  outcome env cwd fs = Throw e ->
  exists thrown,
    handled_error (trace (final env cwd fs)) = Some thrown
    /\ handleError_exit env thrown = None
    /\ fs_exists (disk (final env cwd fs)) (path_resolve cwd config_file_name)
       = true
    /\ unlink_file (path_resolve cwd config_file_name) (disk (final env cwd fs))
       = inl e.
Proof.
  wp_start env cwd fs. wp_run.
  all: simpl; intros He; try discriminate.
  all: injection He as <-; eexists; repeat split; try eassumption; reflexivity.
Qed.

(** X7: when the command ends the process itself, the disk is as it was
    and nothing was committed. It does so with code 1 when validation
    fails, before any question, and with code 0 when the confirmation is
    put and not answered yes. *)
Theorem own_exit_leaves_disk env cwd fs code :
  outcome env cwd fs = Exit code ->
  handled_error (trace (final env cwd fs)) = None ->
  disk (final env cwd fs) = fs
  /\ existsb is_commitment (trace (final env cwd fs)) = false
  /\ ((code = 1
       /\ validated (trace (final env cwd fs)) = false
       /\ existsb is_prompt (trace (final env cwd fs)) = false)
      \/ (code = 0
          /\ validated (trace (final env cwd fs)) = true
          /\ op_proceed env <> Answered true
          /\ (answered_at PProceed (trace (final env cwd fs)) = true
              \/ cancelled_at PProceed (trace (final env cwd fs)) = true))).
Proof.
  wp_start env cwd fs. wp_run.
  all: simpl; intros Hexit Hnone; try discriminate.
  all: injection Hexit as <-; repeat split.
  all: first [ left; repeat split; reflexivity
             | right; repeat split; try reflexivity; try congruence;
               first [left; reflexivity | right; reflexivity] ].
Qed.

(** X8: the configuration file is written only for resolved paths that
    are both non-empty. *)
Theorem config_needs_resolved_paths env cwd fs path text :
  config_written (trace (final env cwd fs)) = Some (path, text) ->
  exists c paths,
    resolved_in (trace (final env cwd fs)) = Some (c, paths)
    /\ text = JSON_stringify (config_to_json c)
    /\ resolved_components paths <> EmptyString
    /\ resolved_css paths <> EmptyString.
Proof.
  wp_start env cwd fs. wp_run.
  all: simpl; intros Hw; try discriminate.
  all: injection Hw as <- <-.
  all: match goal with
       | H : String.eqb _ EmptyString || String.eqb _ EmptyString = false
         |- _ =>
           apply orb_false_iff in H as [E1 E2];
           apply String.eqb_neq in E1, E2
       end.
  all: do 2 eexists; repeat split; try reflexivity; assumption.
Qed.

(** *** The disk through a run *)

Lemma fs_exists_insert (fs : FS) p n q :
  fs_exists fs q = true -> fs_exists (<[p := n]> fs) q = true.
Proof.
  unfold fs_exists. intros H. destruct (decide (p = q)) as [->|Hne].
  - rewrite lookup_insert_eq. reflexivity.
  - rewrite lookup_insert_ne by exact Hne. exact H.
Qed.

Lemma mkdir_p_keeps_exists p (fs fs' : FS) q :
  mkdir_p p fs = inr fs' -> fs_exists fs q = true -> fs_exists fs' q = true.
Proof.
  intros Hmk Hq. unfold fs_exists in Hq.
  destruct (fs !! q) as [n|] eqn:E; [|discriminate].
  eapply fs_exists_Some, mkdir_p_keeps; eassumption.
Qed.

Lemma ensure_dir_exists p (fs : FS) : fs_exists (ensure_dir p fs) p = true.
Proof.
  unfold ensure_dir, fs_exists. destruct (fs !! p) eqn:E.
  - rewrite E. reflexivity.
  - rewrite lookup_insert_eq. reflexivity.
Qed.

(** [mkdir -p] leaves the path in place. *)
Lemma mkdir_p_exists p (fs fs' : FS) :
  mkdir_p p fs = inr fs' -> fs_exists fs' p = true.
Proof.
  unfold mkdir_p. cbn [ancestors foldr].
  destruct (String.eqb p EmptyString); [discriminate|].
  destruct (is_file fs p); [discriminate|].
  destruct (existsb _ _); [discriminate|].
  intros [= <-]. apply ensure_dir_exists.
Qed.

Lemma ensure_dir_other p (fs : FS) q :
  p <> q -> ensure_dir p fs !! q = fs !! q.
Proof.
  unfold ensure_dir. intros Hne. destruct (fs !! p); [reflexivity|].
  apply lookup_insert_ne, Hne.
Qed.

(** [mkdir -p] changes nothing off the path from the root to [p]. *)
Lemma mkdir_p_frame p (fs fs' : FS) q :
  mkdir_p p fs = inr fs' -> on_path_to q p = false -> fs' !! q = fs !! q.
Proof.
  unfold mkdir_p, on_path_to.
  generalize (ancestors (S (String.length p)) p) as chain.
  intros chain H Hoff.
  destruct (String.eqb p EmptyString); [discriminate|].
  destruct (is_file fs p); [discriminate|].
  destruct (existsb (is_file fs) chain); [discriminate|].
  injection H as <-.
  induction chain as [|a l IH]; simpl in *.
  - reflexivity.
  - apply orb_false_iff in Hoff as [Ha Hl].
    apply String.eqb_neq in Ha.
    rewrite ensure_dir_other by congruence. apply IH, Hl.
Qed.

(** Carries a lookup at [q] back through the steps of a run; [Hframe]
    says the subprocess leaves [q] alone. *)
Ltac trace_back Hframe q :=
  repeat match goal with
         | H : write_file _ _ _ = inr _ |- _ =>
             apply write_file_inr in H; subst
         | H : unlink_file _ _ = inr _ |- _ =>
             apply unlink_file_inr in H; subst
         end;
  repeat first
    [ rewrite lookup_delete_ne by congruence
    | rewrite lookup_insert_ne by congruence
    | match goal with
      | H : mkdir_p ?p ?f = inr ?f' |- context [?f' !! q] =>
          rewrite (mkdir_p_frame p f f' q H) by assumption
      | H : subprocess _ ?cmd ?args _ ?f = (?f', _) |- context [?f' !! q] =>
          let Hf := fresh in
          pose proof (Hframe cmd args f) as Hf;
          rewrite H in Hf; cbn [fst] in Hf; rewrite Hf; clear Hf
      end ].

(** X9: the cleanup does not undo the stylesheet. Once a run has written
    the stylesheet, at a path other than the configuration file's, the
    text stays on disk however the run ends: also when the installation
    fails and the configuration file is deleted. *)
Theorem stylesheet_survives env cwd fs path text :
  stylesheet_written (trace (final env cwd fs)) = Some (path, text) ->
  path <> path_resolve cwd config_file_name ->
  (forall cmd args fs0,
     fst (subprocess env cmd args cwd fs0) !! path = fs0 !! path) ->
  disk (final env cwd fs) !! path = Some (File text).
Proof.
  wp_start env cwd fs. wp_run.
  all: simpl; intros Hw Hne Hframe; try discriminate.
  all: injection Hw as <- <-.
  all: match goal with
       | |- _ !! ?q = _ => trace_back Hframe q
       end.
  all: apply lookup_insert_eq.
Qed.

(** X12: a run changes the disk only at getatomic.components.json, at
    the resolved stylesheet path, and on the way from the root to the
    components directory and to the stylesheet's directory; every other
    path that the install subprocess leaves alone holds at the end what
    it held at the start. *)
Theorem init_frame env cwd fs q :
  q <> path_resolve cwd config_file_name ->
  (forall c paths,
     resolved_in (trace (final env cwd fs)) = Some (c, paths) ->
     q <> resolved_css paths
     /\ on_path_to q (resolved_components paths) = false
     /\ on_path_to q (dirname (resolved_css paths)) = false) ->
  (forall cmd args fs0, fst (subprocess env cmd args cwd fs0) !! q = fs0 !! q) ->
  disk (final env cwd fs) !! q = fs !! q.
Proof.
  intros Hq. revert q Hq.
  wp_start env cwd fs. wp_run.
  all: intros q Hq Hres Hframe; unfold resolved_in in Hres; simpl in Hres.
  all: try reflexivity.
  all: try (destruct (Hres _ _ eq_refl) as (Hcss & Hcomp & Hdir)).
  all: simpl; trace_back Hframe q; reflexivity.
Qed.

(** *** [runInit] on its own *)

Lemma runInit_wp env cwd config fs (Q : Res unit -> World -> Prop) :
  wp (runInit env cwd config) (mkWorld fs []) Q ->
  Q (fst (runInit_from env cwd config fs)) (snd (runInit_from env cwd config fs)).
Proof. intros H. exact H. Qed.

Ltac runInit_start env cwd config fs :=
  pattern (fst (runInit_from env cwd config fs)),
          (snd (runInit_from env cwd config fs));
  apply runInit_wp.

Lemma fs_exists_same (f f' : FS) q :
  f' !! q = f !! q -> fs_exists f q = true -> fs_exists f' q = true.
Proof. unfold fs_exists. intros ->. auto. Qed.

(** X10: when [runInit] returns, the components path exists and the
    stylesheet holds the css fetched for the configured theme, provided
    the install subprocess leaves those two paths alone. *)
Theorem runInit_ensures env cwd config fs :
  fst (runInit_from env cwd config fs) = Ok tt ->
  (forall cmd args fs0 q,
     q = resolved_components (resolvedPaths config)
     \/ q = resolved_css (resolvedPaths config) ->
     fst (subprocess env cmd args cwd fs0) !! q = fs0 !! q) ->
  fs_exists (disk (snd (runInit_from env cwd config fs)))
    (resolved_components (resolvedPaths config)) = true
  /\ exists payload,
       getInitData_result env (cfg_theme_name (raw config)) = inr payload
       /\ disk (snd (runInit_from env cwd config fs))
            !! resolved_css (resolvedPaths config)
          = Some (File (init_css payload)).
Proof.
  runInit_start env cwd config fs. wp_run.
  all: simpl; intros Hok Hframe; try discriminate.
  all: repeat match goal with
       | H : write_file _ _ _ = inr _ |- _ =>
           apply write_file_inr in H; subst
       end.
  all: split; [| eexists; split; [eassumption|] ].
  all: repeat match goal with
       | H : subprocess _ ?cmd ?args _ ?f = (?f', _)
         |- fs_exists ?f' ?q = true =>
           apply (fs_exists_same f f' q);
           [ pose proof (Hframe cmd args f q) as Hf;
             rewrite H in Hf; apply Hf; auto | ]
       | H : subprocess _ ?cmd ?args _ ?f = (?f', _)
         |- ?f' !! ?q = _ =>
           let Hf := fresh in
           pose proof (Hframe cmd args f q) as Hf;
           rewrite H in Hf; cbn [fst] in Hf; rewrite Hf by auto; clear Hf
       end.
  all: try apply lookup_insert_eq.
  all: apply fs_exists_insert.
  all: repeat first
         [ assumption
         | eapply mkdir_p_exists; eassumption
         | eapply mkdir_p_keeps_exists; [eassumption|] ].
Qed.

(** X11: [runInit] creates a directory only for what is missing: when the
    components path and the stylesheet path both exist, it creates none,
    and up to the writing of the stylesheet it leaves the disk as it
    was. *)
Theorem runInit_creates_nothing_present env cwd config fs :
  fs_exists fs (resolved_components (resolvedPaths config)) = true ->
  fs_exists fs (resolved_css (resolvedPaths config)) = true ->
  existsb is_mkdir (trace (snd (runInit_from env cwd config fs))) = false
  /\ (stylesheet_written (trace (snd (runInit_from env cwd config fs))) = None ->
      disk (snd (runInit_from env cwd config fs)) = fs).
Proof.
  intros Hcomp Hcss.
  runInit_start env cwd config fs. wp_run_pruned.
  all: simpl; split; [reflexivity|]; intros; try discriminate; reflexivity.
Qed.

(** X13: the operator is asked at most the four questions, each once and
    in the order theme, stylesheet, alias, confirmation; after a cancelled
    question no other is put, and the first one is put only once
    [getThemes] has returned the list to choose from. *)
Theorem prompt_order env cwd fs :
  asked_in_order [PTheme; PGlobalCSS; PComponents; PProceed]
    (prompts_of (trace (final env cwd fs))) = true
  /\ (existsb is_prompt (trace (final env cwd fs)) = true ->
      exists themes,
        themes_in (trace (final env cwd fs)) = Some themes
        /\ getThemes_result env = inr themes).
Proof.
  wp_start env cwd fs. wp_run.
  all: split; [reflexivity|].
  all: simpl; intros; try discriminate.
  all: eexists; split; [reflexivity | assumption].
Qed.

(** *** The further properties at sample projects *)

Lemma init_without_target_witness :
  outcome env_default "/proj" ∅ = Exit 1.
Proof.
  destruct (init_without_target env_default "/proj" ∅) as (Hexit & _).
  - vm_compute. reflexivity.
  - exact Hexit.
Defined.

Lemma framework_lookup_order_witness :
  List.filter is_check (trace (final env_default "/proj" fs_project))
  = [EvCheckPackage "react" false; EvCheckPackage "next" true].
Proof.
  rewrite (framework_lookup_order env_default "/proj" fs_project).
  - vm_compute. reflexivity.
  - vm_compute. reflexivity.
  - vm_compute. reflexivity.
Defined.

Lemma themes_unavailable_witness :
  handled_error (trace (final env_offline "/proj" fs_project))
    = Some (MkError "fetch failed")
  /\ assembled_in (trace (final env_offline "/proj" fs_project)) = None.
Proof.
  destruct (themes_unavailable env_offline "/proj" fs_project
              (MkError "fetch failed")) as (Hhandled & Hnone & _).
  - reflexivity.
  - vm_compute. reflexivity.
  - split; assumption.
Defined.

Lemma assembled_config_fields_witness :
  cfg_theme_css (mkProjectConfig "zinc" "src/index.css" "~/ui") <> EmptyString
  /\ cfg_alias_components (mkProjectConfig "zinc" "src/index.css" "~/ui")
     <> EmptyString.
Proof.
  destruct (assembled_config_fields env_typed "/proj" fs_project
              (mkProjectConfig "zinc" "src/index.css" "~/ui"))
    as (Hcss & Halias & _).
  - vm_compute. reflexivity.
  - split; assumption.
Defined.

Lemma commitment_needs_consent_witness :
  validated (trace (final env_default "/proj" fs_project)) = true
  /\ op_proceed env_default = Answered true.
Proof.
  destruct (commitment_needs_consent env_default "/proj" fs_project)
    as (Hvalid & _ & Hyes).
  - vm_compute. reflexivity.
  - split; assumption.
Defined.

Lemma only_cleanup_rejects_witness :
  exists thrown,
    handled_error (trace (final env_offline "/proj" fs_config_is_directory))
      = Some thrown
    /\ handleError_exit env_offline thrown = None.
Proof.
  destruct (only_cleanup_rejects env_offline "/proj" fs_config_is_directory
              (MkError "EISDIR: illegal operation on a directory, unlink"))
    as (thrown & Hhandled & Hreturned & _).
  - vm_compute. reflexivity.
  - exists thrown. split; assumption.
Defined.

Lemma own_exit_leaves_disk_witness :
  disk (final env_declined "/proj" fs_project) = fs_project.
Proof.
  destruct (own_exit_leaves_disk env_declined "/proj" fs_project 0)
    as (Hdisk & _).
  - vm_compute. reflexivity.
  - vm_compute. reflexivity.
  - exact Hdisk.
Defined.

Lemma config_needs_resolved_paths_witness :
  exists c paths,
    resolved_in (trace (final env_default "/proj" fs_project)) = Some (c, paths)
    /\ resolved_components paths <> EmptyString
    /\ resolved_css paths <> EmptyString.
Proof.
  destruct (config_needs_resolved_paths env_default "/proj" fs_project
              "/proj/getatomic.components.json"
              (JSON_stringify (config_to_json
                 (mkProjectConfig "rose" "app/globals.css"
                    "@/components/getatomic"))))
    as (c & paths & Hres & _ & Hcomp & Hcss).
  - vm_compute. reflexivity.
  - exists c, paths. repeat split; assumption.
Defined.

Lemma stylesheet_survives_witness :
  handled_error (trace (final env_install_fails "/proj" fs_project))
    = Some (MkError "Command failed with exit code 1")
  /\ disk (final env_install_fails "/proj" fs_project)
       !! "/proj/getatomic.components.json" = None
  /\ disk (final env_install_fails "/proj" fs_project)
       !! "/proj/app/globals.css" = Some (File "body{}").
Proof.
  split; [vm_compute; reflexivity|].
  split; [vm_compute; reflexivity|].
  apply (stylesheet_survives env_install_fails "/proj" fs_project
           "/proj/app/globals.css" "body{}").
  - vm_compute. reflexivity.
  - vm_compute. discriminate.
  - intros cmd args fs0. reflexivity.
Defined.

Lemma runInit_ensures_witness :
  fs_exists (disk (snd (runInit_from env_default "/proj" sample_config
                          fs_project)))
    "/proj/components/getatomic" = true.
Proof.
  destruct (runInit_ensures env_default "/proj" sample_config fs_project)
    as (Hcomp & _).
  - vm_compute. reflexivity.
  - intros cmd args fs0 q _. reflexivity.
  - exact Hcomp.
Defined.

Lemma runInit_creates_nothing_present_witness :
  existsb is_mkdir
    (trace (snd (runInit_from env_default "/proj" sample_config
                   fs_initialised))) = false.
Proof.
  destruct (runInit_creates_nothing_present env_default "/proj" sample_config
              fs_initialised) as (Hnone & _).
  - vm_compute. reflexivity.
  - vm_compute. reflexivity.
  - exact Hnone.
Defined.

Lemma init_frame_witness :
  disk (final env_default "/proj" fs_project) !! "/proj/package.json"
  = Some (File "{}").
Proof.
  rewrite (init_frame env_default "/proj" fs_project "/proj/package.json").
  - vm_compute. reflexivity.
  - vm_compute. discriminate.
  - intros c paths Hres. vm_compute in Hres. injection Hres as <- <-.
    split; [vm_compute; discriminate|].
    split; vm_compute; reflexivity.
  - intros cmd args fs0. reflexivity.
Defined.
